(** * Verification of the ID-document extraction pipeline (src/fai.py)

    Shallow embedding of [encode_image], [fill_missing_fields],
    [process_image] and the batch and export parts of [main].

    Modelling choices:
    - Python values decoded from JSON are the inductive [json]; JSON
      numbers are modelled as integers ([Z]).
    - Python strings are [string] (ASCII characters).
    - A Python dict is an association list kept in insertion order;
      key assignment updates an existing key in place and appends a new one.
    - Raised exceptions are the [Err] branch of the [result] monad;
      [try/except Exception] is a match on it.
    - The external capabilities (the inference service, [json.loads],
      file reads, PIL's open/crop/save) are section variables. *)

From Stdlib Require Import ZArith Bool Ascii String List Lia.
From stdpp Require Import base list strings.
Import ListNotations.
Open Scope string_scope.
Local Set Warnings "-register-all".

(* ------------------------------------------------------------------ *)
(** ** Python exceptions and the error monad *)

Record exn := PyExc { exn_type : string; exn_msg : string }.

Inductive result (A : Type) : Type :=
| Ok (a : A)
| Err (e : exn).
Arguments Ok {A} a.
Arguments Err {A} e.

Definition rbind {A B} (c : result A) (k : A -> result B) : result B :=
  match c with
  | Ok a => k a
  | Err e => Err e
  end.

Notation "'let*' x ':=' c 'in' k" := (rbind c (fun x => k))
  (at level 200, x name, c at level 100, k at level 200).

(** [str(e)] of a caught exception. *)
Definition py_str_exn (e : exn) : string := exn_msg e.

(* ------------------------------------------------------------------ *)
(** ** Python values decoded from JSON *)

Inductive json : Type :=
| JNull
| JBool (b : bool)
| JNum (z : Z)
| JStr (s : string)
| JArr (l : list json)
| JObj (kvs : list (string * json)).

Definition py_type_name (v : json) : string :=
  match v with
  | JNull => "NoneType"
  | JBool _ => "bool"
  | JNum _ => "int"
  | JStr _ => "str"
  | JArr _ => "list"
  | JObj _ => "dict"
  end.

(** Dict primitives: [d.get(k)], [k in d], [d[k] = v]. *)
Fixpoint dict_get (k : string) (d : list (string * json)) : option json :=
  match d with
  | [] => None
  | (k', v) :: d' => if String.eqb k k' then Some v else dict_get k d'
  end.

Definition dict_mem (k : string) (d : list (string * json)) : bool :=
  match dict_get k d with Some _ => true | None => false end.

Fixpoint dict_set (k : string) (v : json) (d : list (string * json))
  : list (string * json) :=
  match d with
  | [] => [(k, v)]
  | (k', v') :: d' =>
      if String.eqb k k' then (k', v) :: d' else (k', v') :: dict_set k v d'
  end.

(** Python [==] on decoded JSON values ([True == 1], dicts compared
    as unordered maps). *)
Fixpoint py_eq (a b : json) : bool :=
  match a, b with
  | JNull, JNull => true
  | JBool x, JBool y => Bool.eqb x y
  | JBool x, JNum z => Z.eqb (Z.b2z x) z
  | JNum z, JBool y => Z.eqb z (Z.b2z y)
  | JNum x, JNum y => Z.eqb x y
  | JStr s, JStr t => String.eqb s t
  | JArr l, JArr m =>
      (fix go (l m : list json) : bool :=
         match l, m with
         | [], [] => true
         | x :: l', y :: m' => py_eq x y && go l' m'
         | _, _ => false
         end) l m
  | JObj p, JObj q =>
      Nat.eqb (length p) (length q) &&
      (fix go (p : list (string * json)) : bool :=
         match p with
         | [] => true
         | (k, v) :: p' =>
             match dict_get k q with
             | Some w => py_eq v w && go p'
             | None => false
             end
         end) p
  | _, _ => false
  end.

(** [x in [None, "", [], {}, "none (not provided on the DL)",
    "Not available", "N/A", "NULL"]] *)
Definition sentinels : list json :=
  [JNull; JStr ""; JArr []; JObj [];
   JStr "none (not provided on the DL)"; JStr "Not available";
   JStr "N/A"; JStr "NULL"].

Definition is_sentinel (v : json) : bool := existsb (py_eq v) sentinels.

(* ------------------------------------------------------------------ *)
(** ** [fill_missing_fields] *)

(** The loop [for key in data: if key not in data or data[key] in
    sentinels: data[key] = "na"] over a dict. *)
Fixpoint fill_dict_loop (keys : list string) (d : list (string * json))
  : list (string * json) :=
  match keys with
  | [] => d
  | k :: ks =>
      let missing := negb (dict_mem k d) in
      let d' :=
        if missing || match dict_get k d with
                      | Some v => is_sentinel v
                      | None => false
                      end
        then dict_set k (JStr "na") d else d in
      fill_dict_loop ks d'
  end.

(** [data[key]] for a list receiver: integer (or bool) index, negative
    indices counted from the end. *)
Definition list_index (l : list json) (key : json) : result nat :=
  let idx :=
    match key with
    | JNum z => Ok z
    | JBool b => Ok (Z.b2z b)
    | _ => Err (PyExc "TypeError"
                 ("list indices must be integers or slices, not "
                  ++ py_type_name key))
    end in
  let* z := idx in
  let n := Z.of_nat (length l) in
  if (z <? - n)%Z || (n <=? z)%Z then Err (PyExc "IndexError" "list index out of range")
  else Ok (Z.to_nat (if (z <? 0)%Z then z + n else z)%Z).

(** The same loop when [data] is a list: the iterator reads position [i]
    of the list as it is after the earlier assignments. *)
Fixpoint fill_list_loop (fuel i : nat) (l : list json) : result (list json) :=
  match fuel with
  | O => Ok l
  | S fuel' =>
      match nth_error l i with
      | None => Ok l
      | Some key =>
          let* j := list_index l key in
          let v := nth j l JNull in
          let l' := if is_sentinel v then <[j := JStr "na"]> l else l in
          fill_list_loop fuel' (S i) l'
      end
  end.

Definition fill_missing_fields (data : json) : result json :=
  match data with
  | JObj d => Ok (JObj (fill_dict_loop (map fst d) d))
  | JArr l => let* l' := fill_list_loop (length l) 0 l in Ok (JArr l')
  | JStr s =>
      match s with
      | EmptyString => Ok data
      | String _ _ =>
          Err (PyExc "TypeError" "string indices must be integers, not 'str'")
      end
  | _ => Err (PyExc "TypeError"
               ("'" ++ py_type_name data ++ "' object is not iterable"))
  end.

(* ------------------------------------------------------------------ *)
(** ** The height clean-up of line 73: remove every double-quote character,
    then [.strip()] *)

Definition dquote : ascii := Ascii.ascii_of_nat 34.

Fixpoint remove_char (c : ascii) (s : string) : string :=
  match s with
  | EmptyString => EmptyString
  | String d s' =>
      if Ascii.eqb c d then remove_char c s' else String d (remove_char c s')
  end.

(** [str.isspace] on ASCII characters. *)
Definition is_space (c : ascii) : bool :=
  let n := Ascii.nat_of_ascii c in
  (((9 <=? n) && (n <=? 13)) || ((28 <=? n) && (n <=? 32)))%nat.

Fixpoint lstrip (s : string) : string :=
  match s with
  | EmptyString => EmptyString
  | String c s' => if is_space c then lstrip s' else s
  end.

Definition rstrip (s : string) : string :=
  string_of_list_ascii (rev (list_ascii_of_string
    (lstrip (string_of_list_ascii (rev (list_ascii_of_string s)))))).

Definition py_strip (s : string) : string := rstrip (lstrip s).

Definition clean_height_str (s : string) : string :=
  py_strip (remove_char dquote s).

Fixpoint is_substring (p s : string) : bool :=
  String.prefix p s ||
  match s with
  | EmptyString => false
  | String _ s' => is_substring p s'
  end.

(** [k in v] for a string [k]. *)
Definition py_contains (v : json) (k : string) : result bool :=
  match v with
  | JObj d => Ok (dict_mem k d)
  | JArr l => Ok (existsb (py_eq (JStr k)) l)
  | JStr s => Ok (is_substring k s)
  | _ => Err (PyExc "TypeError"
               ("argument of type '" ++ py_type_name v ++ "' is not iterable"))
  end.

(** [v[k]] for a string key [k]. *)
Definition py_getitem (v : json) (k : string) : result json :=
  match v with
  | JObj d =>
      match dict_get k d with
      | Some x => Ok x
      | None => Err (PyExc "KeyError" ("'" ++ k ++ "'"))
      end
  | JArr _ => Err (PyExc "TypeError" "list indices must be integers or slices, not str")
  | JStr _ => Err (PyExc "TypeError" "string indices must be integers, not 'str'")
  | _ => Err (PyExc "TypeError"
               ("'" ++ py_type_name v ++ "' object is not subscriptable"))
  end.

(** [v[k] = x] for a string key [k]. *)
Definition py_setitem (v : json) (k : string) (x : json) : result json :=
  match v with
  | JObj d => Ok (JObj (dict_set k x d))
  | JArr _ => Err (PyExc "TypeError" "list indices must be integers or slices, not str")
  | _ => Err (PyExc "TypeError"
               ("'" ++ py_type_name v ++ "' object does not support item assignment"))
  end.

(** [x.replace(<double quote>, <empty>).strip()] *)
Definition py_replace_strip (x : json) : result json :=
  match x with
  | JStr s => Ok (JStr (clean_height_str s))
  | _ => Err (PyExc "AttributeError"
               ("'" ++ py_type_name x ++ "' object has no attribute 'replace'"))
  end.

(** Lines 72-73 of [process_image]. *)
Definition clean_height (parsed : json) : result json :=
  let* has := py_contains parsed "height" in
  if has then
    let* h := py_getitem parsed "height" in
    let* h' := py_replace_strip h in
    py_setitem parsed "height" h'
  else Ok parsed.

(** The normalizer: lines 71-73 of [process_image]. *)
Definition normalize (parsed : json) : result json :=
  let* p := fill_missing_fields parsed in
  clean_height p.

(* ------------------------------------------------------------------ *)
(** ** Python built-ins used by the face-crop step *)

(** Truthiness of a value ([if face_bbox and ...]). *)
Definition py_truthy (v : json) : bool :=
  match v with
  | JNull => false
  | JBool b => b
  | JNum z => negb (Z.eqb z 0)
  | JStr s => negb (String.eqb s "")
  | JArr l => negb (Nat.eqb (length l) 0)
  | JObj d => negb (Nat.eqb (length d) 0)
  end.

(** [len(v)] *)
Definition py_len (v : json) : result nat :=
  match v with
  | JStr s => Ok (String.length s)
  | JArr l => Ok (length l)
  | JObj d => Ok (length d)
  | _ => Err (PyExc "TypeError"
               ("object of type '" ++ py_type_name v ++ "' has no len()"))
  end.

(** [iter(v)]: characters of a string, elements of a list, keys of a dict. *)
Definition py_iter (v : json) : result (list json) :=
  match v with
  | JStr s => Ok (map (fun c => JStr (String c EmptyString)) (list_ascii_of_string s))
  | JArr l => Ok l
  | JObj d => Ok (map (fun kv => JStr (fst kv)) d)
  | _ => Err (PyExc "TypeError"
               ("'" ++ py_type_name v ++ "' object is not iterable"))
  end.

Definition digit_value (c : ascii) : option Z :=
  let n := Ascii.nat_of_ascii c in
  if ((48 <=? n) && (n <=? 57))%nat then Some (Z.of_nat n - 48)%Z else None.

(** Decimal digits with single underscores between digits. *)
Fixpoint parse_digits (acc : Z) (after_digit : bool) (l : list ascii) : option Z :=
  match l with
  | [] => if after_digit then Some acc else None
  | c :: l' =>
      if Ascii.eqb c "_"%char then
        match l' with
        | c' :: _ => if after_digit && negb (Ascii.eqb c' "_"%char)
                     then parse_digits acc false l' else None
        | [] => None
        end
      else match digit_value c with
           | Some d => parse_digits (10 * acc + d)%Z true l'
           | None => None
           end
  end.

(** [int(s)] for a string [s] (base 10). *)
Definition parse_int (s : string) : option Z :=
  match list_ascii_of_string (py_strip s) with
  | c :: l =>
      if Ascii.eqb c "-"%char then option_map Z.opp (parse_digits 0 false l)
      else if Ascii.eqb c "+"%char then parse_digits 0 false l
      else parse_digits 0 false (c :: l)
  | [] => None
  end.

(** [int(v)] *)
Definition py_int (v : json) : result Z :=
  match v with
  | JNum z => Ok z
  | JBool b => Ok (Z.b2z b)
  | JStr s =>
      match parse_int s with
      | Some z => Ok z
      | None => Err (PyExc "ValueError"
                      ("invalid literal for int() with base 10: '" ++ s ++ "'"))
      end
  | _ => Err (PyExc "TypeError"
               ("int() argument must be a string, a bytes-like object or a real number, not '"
                ++ py_type_name v ++ "'"))
  end.

Fixpoint map_result {A B} (f : A -> result B) (l : list A) : result (list B) :=
  match l with
  | [] => Ok []
  | x :: l' => let* y := f x in let* ys := map_result f l' in Ok (y :: ys)
  end.

(** [d.get(k)] on the parsed response, which need not be a dict. *)
Definition py_get (v : json) (k : string) : result json :=
  match v with
  | JObj d => Ok (match dict_get k d with Some x => x | None => JNull end)
  | _ => Err (PyExc "AttributeError"
               ("'" ++ py_type_name v ++ "' object has no attribute 'get'"))
  end.

(* ------------------------------------------------------------------ *)
(** ** [os.path] (POSIX) *)

Definition slash : ascii := "/"%char.
Definition dot : ascii := "."%char.

Fixpoint rfind_from (c : ascii) (i : nat) (l : list ascii) (best : option nat)
  : option nat :=
  match l with
  | [] => best
  | d :: l' => rfind_from c (S i) l' (if Ascii.eqb c d then Some i else best)
  end.

(** [s.rfind(c)], [None] standing for -1. *)
Definition rfind (c : ascii) (l : list ascii) : option nat := rfind_from c 0 l None.

Definition ends_with_slash (s : string) : bool :=
  match rev (list_ascii_of_string s) with
  | c :: _ => Ascii.eqb c slash
  | [] => false
  end.

Definition starts_with_slash (s : string) : bool :=
  match s with
  | String c _ => Ascii.eqb c slash
  | EmptyString => false
  end.

(** [os.path.join(a, b)] *)
Definition os_path_join (a b : string) : string :=
  if starts_with_slash b then b
  else if String.eqb a "" || ends_with_slash a then a ++ b
  else a ++ "/" ++ b.

(** [os.path.splitext(p)[0]]: the last dot of the last path component
    splits, unless only dots precede it in that component. *)
Definition splitext_root (p : string) : string :=
  let l := list_ascii_of_string p in
  let start := match rfind slash l with Some i => S i | None => O end in
  match rfind dot l with
  | Some d =>
      if (start <=? d)%nat &&
         existsb (fun c => negb (Ascii.eqb c dot)) (firstn (d - start) (skipn start l))
      then string_of_list_ascii (firstn d l)
      else p
  | None => p
  end.

(* ------------------------------------------------------------------ *)
(** ** Command-line configuration *)

Record args := mk_args {
  input_dir : string;
  output_path : string;
  max_workers : Z;
  output_format : string;
  model : string;
  face_dir : option string   (* [None] is Python's [None] *)
}.

Definition face_dir_set (a : args) : bool :=
  match face_dir a with Some d => negb (String.eqb d "") | None => false end.

(** [os.path.join(args.face_dir, f"{os.path.splitext(filename)[0]}_face.png")] *)
Definition face_crop_path (dir filename : string) : string :=
  os_path_join dir (splitext_root filename ++ "_face.png").

(* ------------------------------------------------------------------ *)
(** ** [process_image] *)

Section Worker.

(** Pixel images, opaque. *)
Variable image : Type.
(** [llm.chat.completions.create(...)] with the fixed prompt and schema
    and the given data URI, followed by [.choices[0].message.content]. *)
Variable llm_complete : string -> result string.
(** [json.loads] *)
Variable json_loads : string -> result json.
(** [Image.open], [img.crop((l, t, r, b))], [img.save(path)] *)
Variable image_open : string -> result image.
Variable image_crop : image -> Z * Z * Z * Z -> result image.
Variable image_save : image -> string -> result unit.

(** Lines 76-84: the face-crop step, run on the normalized record. *)
Definition save_face_crop (a : args) (filename : string) (parsed : json)
  : result unit :=
  match face_dir a with
  | Some dir =>
      if negb (String.eqb dir "") then
        let* face_bbox := py_get parsed "face_bbox" in
        if py_truthy face_bbox then
          let* n := py_len face_bbox in
          if Nat.eqb n 4 then
            let* items := py_iter face_bbox in
            let* coords := map_result py_int items in
            match coords with
            | [x; y; w; h] =>
                let image_path := os_path_join (input_dir a) filename in
                let* img := image_open image_path in
                let* crop := image_crop img (x, y, x + w, y + h)%Z in
                image_save crop (face_crop_path dir filename)
            | _ => Err (PyExc "ValueError" "not enough values to unpack")
            end
          else Ok tt
        else Ok tt
      else Ok tt
  | None => Ok tt
  end.

(** The body of the [try] block (lines 25-86). *)
Definition process_image_body (a : args) (filename image_data_uri : string)
  : result json :=
  let* content := llm_complete image_data_uri in
  let* parsed := json_loads content in
  let* parsed := normalize parsed in
  let* _ := save_face_crop a filename parsed in
  Ok parsed.

(** The FailureRecord [{"error": str(e)}]. *)
Definition error_record (e : exn) : json := JObj [("error", JStr (py_str_exn e))].

(** [process_image]: the [except Exception as e] handler. *)
Definition process_image (a : args) (filename image_data_uri : string)
  : string * json :=
  match process_image_body a filename image_data_uri with
  | Ok parsed => (filename, parsed)
  | Err e => (filename, error_record e)
  end.

End Worker.

(* ------------------------------------------------------------------ *)
(** ** [str(v)] and [repr(v)] of decoded values *)

Fixpoint digits_of_pos (fuel : nat) (n : Z) (acc : string) : string :=
  match fuel with
  | O => acc
  | S fuel' =>
      let d := Ascii.ascii_of_nat (48 + Z.to_nat (n mod 10)) in
      let acc' := String d acc in
      if (n <? 10)%Z then acc' else digits_of_pos fuel' (n / 10)%Z acc'
  end.

(** [str(z)] of an integer. *)
Definition z_to_string (z : Z) : string :=
  let digits n := digits_of_pos (S (Z.to_nat (Z.log2 (Z.abs n)))) (Z.abs n) "" in
  if (z <? 0)%Z then "-" ++ digits z else digits z.

Definition squote : ascii := "'"%char.
Definition backslash : ascii := "\"%char.

Fixpoint escape_for (q : ascii) (s : string) : string :=
  match s with
  | EmptyString => EmptyString
  | String c s' =>
      let n := Ascii.nat_of_ascii c in
      let e :=
        if Ascii.eqb c backslash then "\\"
        else if Ascii.eqb c q then String backslash (String q EmptyString)
        else if Nat.eqb n 10 then "\n"
        else if Nat.eqb n 13 then "\r"
        else if Nat.eqb n 9 then "\t"
        else String c EmptyString in
      e ++ escape_for q s'
  end.

Fixpoint has_char (c : ascii) (s : string) : bool :=
  match s with
  | EmptyString => false
  | String d s' => Ascii.eqb c d || has_char c s'
  end.

(** [repr(s)] of a string: single quotes unless the string holds a single
    quote and no double quote. *)
Definition repr_string (s : string) : string :=
  let q := if has_char squote s && negb (has_char dquote s) then dquote else squote in
  String q (escape_for q s ++ String q EmptyString).

Fixpoint join_with (sep : string) (l : list string) : string :=
  match l with
  | [] => ""
  | [x] => x
  | x :: l' => x ++ sep ++ join_with sep l'
  end.

Fixpoint py_repr (v : json) : string :=
  match v with
  | JNull => "None"
  | JBool b => if b then "True" else "False"
  | JNum z => z_to_string z
  | JStr s => repr_string s
  | JArr l => "[" ++ join_with ", " (map py_repr l) ++ "]"
  | JObj d =>
      "{" ++ join_with ", "
        (map (fun kv => repr_string (fst kv) ++ ": " ++ py_repr (snd kv)) d) ++ "}"
  end.

(** [str(v)]: a string is itself, anything else its [repr]. *)
Definition py_str (v : json) : string :=
  match v with
  | JStr s => s
  | _ => py_repr v
  end.

(** [s.lower()] on ASCII. *)
Definition ascii_lower (c : ascii) : ascii :=
  let n := Ascii.nat_of_ascii c in
  if ((65 <=? n) && (n <=? 90))%nat then Ascii.ascii_of_nat (n + 32) else c.

Fixpoint py_lower (s : string) : string :=
  match s with
  | EmptyString => EmptyString
  | String c s' => String (ascii_lower c) (py_lower s')
  end.

(* ------------------------------------------------------------------ *)
(** ** The batch phase and the export step of [main] *)

(** Observable effects of the export step. *)
Inductive io : Type :=
| IoPrint (msg : string)            (* print(msg) *)
| IoOpen (path : string)            (* open(path, "w") *)
| IoWrite (text : string)           (* f.write(text) *)
| IoRow (cells : list string).      (* writer.writeheader() / writer.writerow(row) *)

(** The CSV field list [all_fields]. *)
Definition all_fields : list string :=
  ["filename"; "ID_type"; "dl_number"; "expiry"; "name"; "dob";
   "address"; "sex"; "height"; "weight"; "hair"; "eyes"; "face_bbox"].

(** The [row] dict of one entry, read in [fieldnames] order by
    [DictWriter.writerow]. *)
Definition csv_row (filename : string) (data : json) : list string :=
  filename ::
  match data with
  | JObj d =>
      map (fun k => py_str (match dict_get k d with Some x => x | None => JStr "" end))
          (tl all_fields)
  | _ => map (fun _ => "") (tl all_fields)
  end.

Definition newline : string := String (Ascii.ascii_of_nat 10) EmptyString.

Definition txt_lines (filename : string) (data : json) : result (list io) :=
  let* items :=
    match data with
    | JObj d => Ok d
    | _ => Err (PyExc "AttributeError"
                 ("'" ++ py_type_name data ++ "' object has no attribute 'items'"))
    end in
  Ok ([IoWrite ("Filename: " ++ filename ++ newline)] ++
      map (fun kv => IoWrite ("  " ++ fst kv ++ ": " ++ py_str (snd kv) ++ newline)) items ++
      [IoWrite newline])%list.

Section Main.

Variable image : Type.
Variable llm_complete : string -> result string.
Variable json_loads : string -> result json.
Variable image_open : string -> result image.
Variable image_crop : image -> Z * Z * Z * Z -> result image.
Variable image_save : image -> string -> result unit.
(** [json.dump(output_data, f, indent=4)] as text. *)
Variable json_dump_indent4 : json -> string.
(** [open(path, "w")]; it may raise. *)
Variable open_for_write : string -> result unit.

Definition worker (a : args) (filename uri : string) : string * json :=
  process_image image llm_complete json_loads image_open image_crop image_save
    a filename uri.

(** Lines 111-118. [completed] is the order in which [as_completed]
    yields the submitted futures, one per element of [encoded]; each
    result is assigned into [output_data]. [ThreadPoolExecutor] rejects
    [max_workers <= 0]. *)
Definition run_batch (a : args) (encoded completed : list (string * string))
  : result (list (string * json)) :=
  if (max_workers a <=? 0)%Z
  then Err (PyExc "ValueError" "max_workers must be greater than 0")
  else Ok (fold_left
             (fun output_data item =>
                let '(filename, result) := worker a (fst item) (snd item) in
                dict_set filename result output_data)
             completed []).

(** Lines 124-157. *)
Definition export (a : args) (output_data : list (string * json))
  : result (list io) :=
  let fmt := py_lower (output_format a) in
  let path := output_path a in
  if String.eqb fmt "json" then
    let* _ := open_for_write path in
    Ok [IoOpen path; IoWrite (json_dump_indent4 (JObj output_data));
        IoPrint ("Output saved to " ++ path)]
  else if String.eqb fmt "txt" then
    let* _ := open_for_write path in
    let* body := map_result (fun kv => txt_lines (fst kv) (snd kv)) output_data in
    Ok ([IoOpen path] ++ concat body ++ [IoPrint ("TXT output saved to " ++ path)])%list
  else if String.eqb fmt "csv" then
    let* _ := open_for_write path in
    Ok ([IoOpen path; IoRow all_fields] ++
        map (fun kv => IoRow (csv_row (fst kv) (snd kv))) output_data ++
        [IoPrint ("CSV output saved to " ++ path)])%list
  else Ok [IoPrint ("Output format '" ++ output_format a ++ "' not supported.")].

End Main.

(* ------------------------------------------------------------------ *)
(** ** [encode_image] *)

(** The base64 alphabet of [base64.b64encode]. *)
Definition b64_char (i : Z) : ascii :=
  let n := Z.to_nat i in
  if (n <? 26)%nat then Ascii.ascii_of_nat (65 + n)
  else if (n <? 52)%nat then Ascii.ascii_of_nat (97 + (n - 26))
  else if (n <? 62)%nat then Ascii.ascii_of_nat (48 + (n - 52))
  else if (n =? 62)%nat then "+"%char
  else "/"%char.

Definition sextet (v : Z) (k : Z) : ascii := b64_char (Z.land (Z.shiftr v k) 63).

(** [base64.b64encode] on bytes given as integers in [0, 256). *)
Fixpoint b64encode (bs : list Z) : string :=
  match bs with
  | b0 :: b1 :: b2 :: bs' =>
      let v := Z.lor (Z.shiftl b0 16) (Z.lor (Z.shiftl b1 8) b2) in
      String (sextet v 18) (String (sextet v 12) (String (sextet v 6)
        (String (sextet v 0) (b64encode bs'))))
  | [b0; b1] =>
      let v := Z.lor (Z.shiftl b0 16) (Z.shiftl b1 8) in
      String (sextet v 18) (String (sextet v 12) (String (sextet v 6) "="))
  | [b0] =>
      let v := Z.shiftl b0 16 in
      String (sextet v 18) (String (sextet v 12) "==")
  | [] => ""
  end.

Section Encoder.

(** [open(path, "rb").read()]; it may raise. *)
Variable read_file : string -> result (list Z).

(** Lines 11-15. *)
Definition encode_image (image_folder filename : string) : result (string * string) :=
  let path := os_path_join image_folder filename in
  let* bytes := read_file path in
  let encoded := b64encode bytes in
  Ok (filename, "data:image/png;base64," ++ encoded).

End Encoder.

(* ------------------------------------------------------------------ *)
(** ** The listing, encode and batch phases of [main] *)

(** [s.endswith(suffix)] *)
Definition py_endswith (s suffix : string) : bool :=
  let n := String.length s in
  let m := String.length suffix in
  (m <=? n)%nat && String.eqb (substring (n - m) m s) suffix.

(** [f.lower().endswith((".png", ".jpg", ".jpeg"))] *)
Definition is_image_name (f : string) : bool :=
  let l := py_lower f in
  py_endswith l ".png" || py_endswith l ".jpg" || py_endswith l ".jpeg".

(** Lines 97-100, on the entries [os.listdir] returned. *)
Definition image_files (listing : list string) : list string :=
  List.filter is_image_name listing.

(** Lines 103-107: [list(executor.map(...))] keeps the order of
    [image_files] and re-raises the first exception in that order. *)
Definition encode_all (read_file : string -> result (list Z))
    (image_folder : string) (files : list string) : result (list (string * string)) :=
  map_result (encode_image read_file image_folder) files.

(** Lines 97-118: [output_data] after the batch, for the directory
    listing [listing]; [order enc] is the order in which [as_completed]
    yields the futures submitted for [enc]. *)
Definition main_output (image : Type) (llm_complete : string -> result string)
    (json_loads : string -> result json) (image_open : string -> result image)
    (image_crop : image -> Z * Z * Z * Z -> result image)
    (image_save : image -> string -> result unit)
    (read_file : string -> result (list Z))
    (order : list (string * string) -> list (string * string))
    (a : args) (listing : list string) : result (list (string * json)) :=
  let* encoded := encode_all read_file (input_dir a) (image_files listing) in
  run_batch image llm_complete json_loads image_open image_crop image_save
    a encoded (order encoded).

(* ================================================================== *)
(** * Properties *)

Open Scope list_scope.

(* ------------------------------------------------------------------ *)
(** ** The normalizer on dicts *)

(** A single value after the sentinel rewrite of [fill_missing_fields]. *)
Definition fill_value (v : json) : json := if is_sentinel v then JStr "na" else v.

Definition fill_entry (kv : string * json) : string * json :=
  (fst kv, fill_value (snd kv)).

(** A single value after the whole normalizer (sentinel rewrite, then the
    height clean-up for the key [height]). *)
Definition norm_field (k : string) (v : json) : json :=
  if is_sentinel v then JStr "na"
  else if String.eqb k "height" then
    match v with JStr s => JStr (clean_height_str s) | _ => v end
  else v.

Definition norm_entry (kv : string * json) : string * json :=
  (fst kv, norm_field (fst kv) (snd kv)).

(** The height step can run: no height, or a sentinel or string height. *)
Definition height_ok (d : list (string * json)) : bool :=
  match dict_get "height" d with
  | Some v => is_sentinel v || match v with JStr _ => true | _ => false end
  | None => true
  end.

Lemma dict_get_notin (k : string) (l : list (string * json)) :
  ~ In k (map fst l) -> dict_get k l = None.
Proof.
  induction l as [|[k' v] l IH]; simpl; intros Hn; [reflexivity|].
  destruct (String.eqb_spec k k') as [->|_]; [tauto|].
  apply IH. tauto.
Qed.

Lemma dict_get_app_notin (k : string) (pre post : list (string * json)) :
  ~ In k (map fst pre) -> dict_get k (pre ++ post) = dict_get k post.
Proof.
  induction pre as [|[k' v] pre IH]; simpl; intros Hn; [reflexivity|].
  destruct (String.eqb_spec k k') as [->|_]; [tauto|].
  apply IH. tauto.
Qed.

Lemma dict_set_app_notin (k : string) (v : json) (pre post : list (string * json)) :
  ~ In k (map fst pre) -> dict_set k v (pre ++ post) = pre ++ dict_set k v post.
Proof.
  induction pre as [|[k' w] pre IH]; simpl; intros Hn; [reflexivity|].
  destruct (String.eqb_spec k k') as [->|_]; [tauto|].
  rewrite IH by tauto. reflexivity.
Qed.

Lemma dict_set_here (k : string) (v w : json) (pre post : list (string * json)) :
  ~ In k (map fst pre) -> dict_set k v (pre ++ (k, w) :: post) = pre ++ (k, v) :: post.
Proof.
  intros Hn. rewrite dict_set_app_notin by exact Hn. simpl.
  rewrite String.eqb_refl. reflexivity.
Qed.

Lemma dict_get_here (k : string) (w : json) (pre post : list (string * json)) :
  ~ In k (map fst pre) -> dict_get k (pre ++ (k, w) :: post) = Some w.
Proof.
  intros Hn. rewrite dict_get_app_notin by exact Hn. simpl.
  rewrite String.eqb_refl. reflexivity.
Qed.

Lemma map_fst_fill_entry (l : list (string * json)) :
  map fst (map fill_entry l) = map fst l.
Proof. induction l as [|kv l IH]; simpl; [reflexivity | rewrite IH; reflexivity]. Qed.

Lemma map_fst_norm_entry (l : list (string * json)) :
  map fst (map norm_entry l) = map fst l.
Proof. induction l as [|kv l IH]; simpl; [reflexivity | rewrite IH; reflexivity]. Qed.

Lemma NoDup_middle_notin {A} (l1 l2 : list A) (a : A) :
  NoDup (l1 ++ a :: l2) -> ~ In a l1 /\ ~ In a l2.
Proof.
  intros H. apply NoDup_ListNoDup, NoDup_remove_2 in H.
  rewrite in_app_iff in H. tauto.
Qed.

(** The loop of [fill_missing_fields] rewrites exactly the sentinel
    values of a dict and keeps its keys and their order. *)
Lemma fill_dict_loop_map (pre post : list (string * json)) :
  NoDup (map fst (pre ++ post)) ->
  fill_dict_loop (map fst post) (pre ++ post) = pre ++ map fill_entry post.
Proof.
  revert pre. induction post as [|[k v] post IH]; intros pre Hnd.
  - simpl. rewrite app_nil_r. reflexivity.
  - rewrite map_app in Hnd. simpl in Hnd.
    destruct (NoDup_middle_notin _ _ _ Hnd) as [Hpre _].
    simpl. unfold dict_mem. rewrite (dict_get_here k v pre post Hpre). simpl.
    assert (Hstep : forall x, pre ++ (k, x) :: post = (pre ++ [(k, x)]) ++ post)
      by (intros x; rewrite <- app_assoc; reflexivity).
    assert (Hnd' : forall x, NoDup (map fst ((pre ++ [(k, x)]) ++ post))).
    { intros x. rewrite <- Hstep, map_app. exact Hnd. }
    unfold fill_entry at 1, fill_value at 1; simpl.
    destruct (is_sentinel v).
    + rewrite (dict_set_here k (JStr "na") v pre post Hpre).
      rewrite Hstep, IH by apply Hnd'. rewrite <- app_assoc. reflexivity.
    + rewrite Hstep, IH by apply Hnd'. rewrite <- app_assoc. reflexivity.
Qed.

Lemma fill_missing_fields_dict (d : list (string * json)) :
  NoDup (map fst d) ->
  fill_missing_fields (JObj d) = Ok (JObj (map fill_entry d)).
Proof.
  intros Hnd. simpl. f_equal. f_equal.
  apply (fill_dict_loop_map [] d). exact Hnd.
Qed.

Lemma map_norm_entry_no_height (l : list (string * json)) :
  ~ In "height" (map fst l) -> map norm_entry l = map fill_entry l.
Proof.
  induction l as [|[k v] l IH]; simpl; intros Hn; [reflexivity|].
  rewrite IH by tauto. f_equal.
  unfold norm_entry, fill_entry, norm_field, fill_value; simpl.
  destruct (is_sentinel v); [reflexivity|].
  destruct (String.eqb_spec k "height") as [->|_]; [tauto | reflexivity].
Qed.

Lemma clean_height_str_na : clean_height_str "na" = "na".
Proof. reflexivity. Qed.

(** The normalizer (lines 71-73) on a dict: the sentinel rewrite on every
    value, then the height clean-up, which raises [AttributeError] on a
    height that is neither a sentinel nor a string. *)
Lemma normalize_dict (d : list (string * json)) :
  NoDup (map fst d) ->
  (height_ok d = true -> normalize (JObj d) = Ok (JObj (map norm_entry d))) /\
  (height_ok d = false ->
   exists e, normalize (JObj d) = Err e /\ exn_type e = "AttributeError").
Proof.
  intros Hnd. unfold normalize. rewrite fill_missing_fields_dict by exact Hnd.
  cbn [rbind]. unfold clean_height. cbn [py_contains rbind]. unfold dict_mem.
  destruct (in_dec string_dec "height" (map fst d)) as [Hin|Hout].
  - apply in_map_iff in Hin as [[k v] [Hk Hkv]]. simpl in Hk. subst k.
    apply in_split in Hkv as (pre & post & ->).
    rewrite map_app in Hnd. simpl in Hnd.
    destruct (NoDup_middle_notin _ _ _ Hnd) as [Hpre Hpost].
    assert (Hpre' : ~ In "height" (map fst (map fill_entry pre)))
      by (rewrite map_fst_fill_entry; exact Hpre).
    rewrite !map_app. cbn [map].
    change (fill_entry ("height", v)) with ("height", fill_value v).
    change (norm_entry ("height", v)) with ("height", norm_field "height" v).
    unfold height_ok. rewrite (dict_get_here _ _ _ _ Hpre).
    rewrite (dict_get_here _ _ _ _ Hpre'). cbn [py_getitem rbind].
    rewrite (dict_get_here _ _ _ _ Hpre'). cbn [rbind].
    rewrite (map_norm_entry_no_height pre Hpre),
      (map_norm_entry_no_height post Hpost).
    unfold fill_value, norm_field. rewrite String.eqb_refl.
    destruct (is_sentinel v) eqn:Hs.
    + cbn [orb py_replace_strip py_setitem rbind]. split; [intros _ | discriminate].
      rewrite clean_height_str_na, (dict_set_here _ _ _ _ _ Hpre'). reflexivity.
    + destruct v; cbn [orb py_replace_strip py_setitem rbind];
        split; try discriminate; intros _;
        try (eexists; split; reflexivity).
      rewrite (dict_set_here _ _ _ _ _ Hpre'). reflexivity.
  - assert (Hout' : ~ In "height" (map fst (map fill_entry d)))
      by (rewrite map_fst_fill_entry; exact Hout).
    rewrite (dict_get_notin _ _ Hout'). cbn [rbind].
    unfold height_ok. rewrite (dict_get_notin _ _ Hout).
    split; [intros _ | discriminate].
    rewrite (map_norm_entry_no_height d Hout). reflexivity.
Qed.

(* ------------------------------------------------------------------ *)
(** ** [strip] and quote removal on character lists *)

Fixpoint lstrip_l (l : list ascii) : list ascii :=
  match l with
  | [] => []
  | c :: l' => if is_space c then lstrip_l l' else l
  end.

Definition no_lead_space (l : list ascii) : bool :=
  match l with [] => true | c :: _ => negb (is_space c) end.

Lemma lstrip_list (s : string) :
  list_ascii_of_string (lstrip s) = lstrip_l (list_ascii_of_string s).
Proof.
  induction s as [|c s IH]; simpl; [reflexivity|].
  destruct (is_space c); [exact IH | reflexivity].
Qed.

Lemma py_strip_list (s : string) :
  list_ascii_of_string (py_strip s) =
  rev (lstrip_l (rev (lstrip_l (list_ascii_of_string s)))).
Proof.
  unfold py_strip, rstrip.
  rewrite list_ascii_of_string_of_list_ascii, lstrip_list,
    list_ascii_of_string_of_list_ascii, lstrip_list. reflexivity.
Qed.

Lemma lstrip_l_no_lead (l : list ascii) : no_lead_space (lstrip_l l) = true.
Proof.
  induction l as [|c l IH]; simpl; [reflexivity|].
  destruct (is_space c) eqn:E; [exact IH | simpl; rewrite E; reflexivity].
Qed.

Lemma lstrip_l_fixed (l : list ascii) : no_lead_space l = true -> lstrip_l l = l.
Proof.
  destruct l as [|c l]; simpl; [reflexivity|].
  destruct (is_space c); [discriminate | reflexivity].
Qed.

Lemma lstrip_l_snoc (x : list ascii) (c : ascii) :
  is_space c = false -> exists y, lstrip_l (x ++ [c]) = y ++ [c].
Proof.
  intros Hc. induction x as [|a x IH]; simpl.
  - rewrite Hc. exists []. reflexivity.
  - destruct (is_space a); [exact IH | exists (a :: x); reflexivity].
Qed.

Lemma rstrip_keeps_no_lead (l : list ascii) :
  no_lead_space l = true -> no_lead_space (rev (lstrip_l (rev l))) = true.
Proof.
  destruct l as [|c m]; simpl; [reflexivity|].
  intros Hc. apply negb_true_iff in Hc.
  destruct (lstrip_l_snoc (rev m) c Hc) as [y ->].
  rewrite rev_app_distr. simpl. rewrite Hc. reflexivity.
Qed.

Lemma lstrip_l_in (l : list ascii) (x : ascii) : In x (lstrip_l l) -> In x l.
Proof.
  induction l as [|c l IH]; simpl; [tauto|].
  destruct (is_space c); simpl; tauto.
Qed.

(** [strip] is idempotent. *)
Lemma py_strip_idem (s : string) : py_strip (py_strip s) = py_strip s.
Proof.
  rewrite <- (string_of_list_ascii_of_string (py_strip (py_strip s))),
    <- (string_of_list_ascii_of_string (py_strip s)).
  f_equal. rewrite !py_strip_list.
  set (t := lstrip_l (list_ascii_of_string s)).
  assert (Ht : no_lead_space t = true) by apply lstrip_l_no_lead.
  pose proof (rstrip_keeps_no_lead t Ht) as Hu.
  rewrite list_ascii_of_string_of_list_ascii, (lstrip_l_fixed _ Hu), rev_involutive.
  rewrite (lstrip_l_fixed (lstrip_l (rev t)) (lstrip_l_no_lead _)).
  reflexivity.
Qed.

Lemma has_char_in (c : ascii) (s : string) :
  has_char c s = true <-> In c (list_ascii_of_string s).
Proof.
  induction s as [|d s IH]; simpl; [split; [discriminate | tauto]|].
  rewrite orb_true_iff, <- IH.
  destruct (Ascii.eqb_spec c d) as [->|Hne]; [tauto|].
  split; [intros [H|H]; [discriminate | auto] | intros [H|H]; [congruence | auto]].
Qed.

Lemma remove_char_absent (c : ascii) (s : string) :
  has_char c s = false -> remove_char c s = s.
Proof.
  induction s as [|d s IH]; simpl; [reflexivity|].
  intros H. apply orb_false_iff in H as [H1 H2]. rewrite H1, IH by exact H2.
  reflexivity.
Qed.

Lemma remove_char_removes (c : ascii) (s : string) :
  has_char c (remove_char c s) = false.
Proof.
  induction s as [|d s IH]; simpl; [reflexivity|].
  destruct (Ascii.eqb c d) eqn:E; [exact IH | simpl; rewrite E, IH; reflexivity].
Qed.

Lemma py_strip_no_new_char (c : ascii) (s : string) :
  has_char c s = false -> has_char c (py_strip s) = false.
Proof.
  intros H. destruct (has_char c (py_strip s)) eqn:E; [|reflexivity].
  exfalso. apply has_char_in in E. rewrite py_strip_list in E.
  apply in_rev, lstrip_l_in, in_rev, lstrip_l_in in E.
  apply has_char_in in E. congruence.
Qed.

(** The height clean-up is idempotent on strings. *)
Lemma clean_height_str_idem (s : string) :
  clean_height_str (clean_height_str s) = clean_height_str s.
Proof.
  unfold clean_height_str.
  rewrite (remove_char_absent dquote (py_strip (remove_char dquote s))).
  - apply py_strip_idem.
  - apply py_strip_no_new_char, remove_char_removes.
Qed.

Lemma dict_get_norm (k : string) (l : list (string * json)) :
  dict_get k (map norm_entry l) = option_map (norm_field k) (dict_get k l).
Proof.
  induction l as [|[k' v] l IH]; simpl; [reflexivity|].
  destruct (String.eqb_spec k k') as [->|_]; [reflexivity | exact IH].
Qed.

Lemma dict_get_in_NoDup (k : string) (v : json) (l : list (string * json)) :
  NoDup (map fst l) -> In (k, v) l -> dict_get k l = Some v.
Proof.
  induction l as [|[k' w] l IH]; simpl; [tauto|].
  intros Hnd Hin. apply NoDup_cons in Hnd as [Hk' Hnd].
  destruct Hin as [Heq|Hin].
  - inversion Heq; subst. rewrite String.eqb_refl. reflexivity.
  - destruct (String.eqb_spec k k') as [->|_]; [|apply IH; assumption].
    exfalso. apply Hk', list_elem_of_In, in_map_iff. exists (k', v). auto.
Qed.

Lemma is_sentinel_na : is_sentinel (JStr "na") = false.
Proof. reflexivity. Qed.

Lemma norm_field_idem (k : string) (v : json) :
  (String.eqb k "height" = true -> is_sentinel (norm_field k v) = false) ->
  norm_field k (norm_field k v) = norm_field k v.
Proof.
  intros Hh. unfold norm_field at 2 3.
  destruct (is_sentinel v) eqn:Hs.
  - unfold norm_field. rewrite is_sentinel_na.
    destruct (String.eqb k "height"); [rewrite clean_height_str_na|]; reflexivity.
  - destruct (String.eqb k "height") eqn:Hk.
    + destruct v as [| | |s| |]; unfold norm_field; rewrite ?Hs, ?Hk; try reflexivity.
      specialize (Hh eq_refl). unfold norm_field in Hh. rewrite Hs, Hk in Hh.
      rewrite Hh, clean_height_str_idem. reflexivity.
    + unfold norm_field. rewrite Hs, Hk. reflexivity.
Qed.

Lemma height_ok_norm (d : list (string * json)) :
  height_ok d = true -> height_ok (map norm_entry d) = true.
Proof.
  unfold height_ok. rewrite dict_get_norm.
  destruct (dict_get "height" d) as [v|]; simpl; [|reflexivity].
  intros Hv. unfold norm_field. simpl.
  destruct (is_sentinel v) eqn:Hs; [rewrite is_sentinel_na; reflexivity|].
  simpl in Hv. destruct v; try discriminate. rewrite orb_true_r. reflexivity.
Qed.

(* ------------------------------------------------------------------ *)
(** ** Claims on the normalizer *)

(** A response that satisfies the schema's [required] list
    ([ID_type], [name], [dob], [altered]) and nothing else. *)
Definition sample_kvs : list (string * json) :=
  [("ID_type", JStr "DL"); ("name", JStr "JANE DOE");
   ("dob", JStr "01/02/1990"); ("altered", JBool false)].

(** C1 (code_bug): the normalizer does not add a field that is missing
    from the response: on a response carrying only the required fields,
    it returns the mapping unchanged, and [dl_number] (like every other
    optional field) stays absent instead of being set to "na". *)
Theorem fill_missing_fields_keeps_missing_absent :
  normalize (JObj sample_kvs) = Ok (JObj sample_kvs) /\
  dict_mem "dl_number" sample_kvs = false /\
  dict_mem "face_bbox" sample_kvs = false.
Proof. split; [reflexivity | split; reflexivity]. Qed.

(** C4 (counterexample): a numeric height is not a sentinel, yet the
    normalizer does not preserve it: the height step raises. *)
Lemma normalize_numeric_height_raises :
  normalize (JObj [("height", JNum 170)]) =
  Err (PyExc "AttributeError" "'int' object has no attribute 'replace'").
Proof. reflexivity. Qed.

(** C4 (amended): on a dict whose height is absent, a sentinel or a
    string, normalization succeeds, keeps the keys in order, and maps each
    present key's value to "na" when it is a sentinel and otherwise keeps
    it, except that a string height has its double quotes removed and
    surrounding whitespace stripped. A height that is neither a sentinel
    nor a string makes the height step raise [AttributeError]. *)
Theorem normalize_rewrites_sentinels (d : list (string * json)) :
  NoDup (map fst d) ->
  (height_ok d = true ->
   exists d', normalize (JObj d) = Ok (JObj d') /\
     map fst d' = map fst d /\
     forall k v, In (k, v) d -> dict_get k d' = Some (norm_field k v)) /\
  (height_ok d = false ->
   exists e, normalize (JObj d) = Err e /\ exn_type e = "AttributeError").
Proof.
  intros Hnd. destruct (normalize_dict d Hnd) as [Hok Hbad]. split; [|exact Hbad].
  intros Hh. exists (map norm_entry d). split; [exact (Hok Hh)|].
  split; [apply map_fst_norm_entry|].
  intros k v Hin. rewrite dict_get_norm, (dict_get_in_NoDup k v d Hnd Hin).
  reflexivity.
Qed.

Lemma normalize_rewrites_sentinels_witness :
  NoDup (map fst [("name", JStr "N/A"); ("height", JStr " 5'6 "); ("sex", JStr "F")]) /\
  ((height_ok [("name", JStr "N/A"); ("height", JStr " 5'6 "); ("sex", JStr "F")] = true ->
    exists d', normalize (JObj [("name", JStr "N/A"); ("height", JStr " 5'6 "); ("sex", JStr "F")])
                 = Ok (JObj d') /\
      map fst d' = map fst [("name", JStr "N/A"); ("height", JStr " 5'6 "); ("sex", JStr "F")] /\
      forall k v, In (k, v) [("name", JStr "N/A"); ("height", JStr " 5'6 "); ("sex", JStr "F")] ->
                  dict_get k d' = Some (norm_field k v)) /\
   (height_ok [("name", JStr "N/A"); ("height", JStr " 5'6 "); ("sex", JStr "F")] = false ->
    exists e, normalize (JObj [("name", JStr "N/A"); ("height", JStr " 5'6 "); ("sex", JStr "F")])
                = Err e /\ exn_type e = "AttributeError")).
Proof.
  assert (H : NoDup (map fst [("name", JStr "N/A"); ("height", JStr " 5'6 "); ("sex", JStr "F")]))
    by (apply (bool_decide_unpack _); vm_compute; exact I).
  split; [exact H | apply (normalize_rewrites_sentinels _ H)].
Defined.

(** C5 (counterexample): a height made only of double quotes is cleaned
    to the empty string, a sentinel, which a second normalization then
    rewrites to "na". *)
Lemma normalize_not_idempotent :
  normalize (JObj [("height", JStr (String dquote (String dquote EmptyString)))]) =
    Ok (JObj [("height", JStr "")]) /\
  normalize (JObj [("height", JStr "")]) = Ok (JObj [("height", JStr "na")]).
Proof. split; reflexivity. Qed.

(** C5 (amended): normalizing a dict a second time is a no-op whenever
    the first normalization succeeded and left no sentinel as the height
    (the clean-up of a height can produce a fresh sentinel such as the
    empty string or "N/A"). *)
Theorem normalize_idempotent_clean_height (d d' : list (string * json)) :
  NoDup (map fst d) ->
  normalize (JObj d) = Ok (JObj d') ->
  (forall h, dict_get "height" d' = Some h -> is_sentinel h = false) ->
  normalize (JObj d') = Ok (JObj d').
Proof.
  intros Hnd Hn Hh.
  destruct (normalize_dict d Hnd) as [Hok Hbad].
  destruct (height_ok d) eqn:Hhd.
  - rewrite (Hok eq_refl) in Hn. injection Hn as <-.
    assert (Hnd' : NoDup (map fst (map norm_entry d))) by (rewrite map_fst_norm_entry; exact Hnd).
    destruct (normalize_dict _ Hnd') as [Hok' _].
    rewrite (Hok' (height_ok_norm d Hhd)). do 2 f_equal.
    rewrite map_map. apply map_ext_in. intros [k v] Hin.
    unfold norm_entry. cbn [fst snd]. f_equal. apply norm_field_idem.
    intros Hk. apply String.eqb_eq in Hk. subst k. apply Hh.
    rewrite dict_get_norm, (dict_get_in_NoDup _ _ _ Hnd Hin). reflexivity.
  - destruct (Hbad eq_refl) as [e [He _]]. congruence.
Qed.

Lemma normalize_idempotent_clean_height_witness :
  NoDup (map fst [("height", JStr " 5'6 "); ("eyes", JNull)]) /\
  normalize (JObj [("height", JStr " 5'6 "); ("eyes", JNull)]) =
    Ok (JObj [("height", JStr "5'6"); ("eyes", JStr "na")]) /\
  (forall h, dict_get "height" [("height", JStr "5'6"); ("eyes", JStr "na")] = Some h ->
             is_sentinel h = false) /\
  normalize (JObj [("height", JStr "5'6"); ("eyes", JStr "na")]) =
    Ok (JObj [("height", JStr "5'6"); ("eyes", JStr "na")]).
Proof.
  assert (H1 : NoDup (map fst [("height", JStr " 5'6 "); ("eyes", JNull)])) by (apply (bool_decide_unpack _); vm_compute; exact I).
  assert (H2 : normalize (JObj [("height", JStr " 5'6 "); ("eyes", JNull)]) =
               Ok (JObj [("height", JStr "5'6"); ("eyes", JStr "na")])) by reflexivity.
  assert (H3 : forall h, dict_get "height" [("height", JStr "5'6"); ("eyes", JStr "na")] = Some h ->
                         is_sentinel h = false)
    by (simpl; intros h Hh; injection Hh as <-; reflexivity).
  split; [exact H1 | split; [exact H2 | split; [exact H3 |]]].
  exact (normalize_idempotent_clean_height _ _ H1 H2 H3).
Defined.

(* ------------------------------------------------------------------ *)
(** ** Claims on [process_image] *)

Section WorkerProps.

Variable image : Type.
Variable llm_complete : string -> result string.
Variable json_loads : string -> result json.
Variable image_open : string -> result image.
Variable image_crop : image -> Z * Z * Z * Z -> result image.
Variable image_save : image -> string -> result unit.

Lemma save_face_crop_needs_dict (a : args) (filename : string) (p : json) (u : unit) :
  save_face_crop image image_open image_crop image_save a filename p = Ok u ->
  face_dir_set a = true -> exists d, p = JObj d.
Proof.
  unfold save_face_crop, face_dir_set.
  destruct (face_dir a) as [dir|]; [|discriminate].
  destruct (String.eqb dir "") eqn:Hd; cbn [negb]; [discriminate|].
  destruct p as [| | | | |d]; cbn [py_get rbind]; try discriminate.
  intros _ _. exists d. reflexivity.
Qed.

Lemma process_image_body_ok (a : args) (filename uri : string) (p : json) :
  process_image_body image llm_complete json_loads image_open image_crop image_save
    a filename uri = Ok p ->
  exists u, save_face_crop image image_open image_crop image_save a filename p = Ok u.
Proof.
  unfold process_image_body.
  destruct (llm_complete uri) as [c|]; cbn [rbind]; [|discriminate].
  destruct (json_loads c) as [j|]; cbn [rbind]; [|discriminate].
  destruct (normalize j) as [q|]; cbn [rbind]; [|discriminate].
  destruct (save_face_crop image image_open image_crop image_save a filename q)
    as [u|] eqn:Hs; cbn [rbind]; [|discriminate].
  intros H. injection H as <-. exists u. exact Hs.
Qed.

(** C2 (amended): once the response is parsed and normalized into [p],
    [process_image] returns [p] when the face-crop step succeeds, and the
    FailureRecord [{"error": str(e)}] when the face-crop step raises [e]:
    a cropping failure replaces the record by a failure. *)
Theorem process_image_crop_failure_is_failure
    (a : args) (filename uri c : string) (j p : json) :
  llm_complete uri = Ok c ->
  json_loads c = Ok j ->
  normalize j = Ok p ->
  process_image image llm_complete json_loads image_open image_crop image_save
    a filename uri =
  (filename,
   match save_face_crop image image_open image_crop image_save a filename p with
   | Ok _ => p
   | Err e => error_record e
   end).
Proof.
  intros Hc Hj Hp. unfold process_image, process_image_body.
  rewrite Hc. cbn [rbind]. rewrite Hj. cbn [rbind]. rewrite Hp. cbn [rbind].
  destruct (save_face_crop image image_open image_crop image_save a filename p);
    reflexivity.
Qed.

(** C3 (amended): [process_image] never raises: it returns its filename
    together with either the FailureRecord [{"error": str(e)}] of the
    exception [e] raised in the [try] body, or the value the body
    produced. That value is a dict whenever a face directory is
    configured; without one it is whatever the decoded response became
    after normalization, which need not be a dict. *)
Theorem process_image_never_raises (a : args) (filename uri : string) :
  let r := process_image image llm_complete json_loads image_open image_crop
             image_save a filename uri in
  fst r = filename /\
  ((exists e, process_image_body image llm_complete json_loads image_open image_crop
                image_save a filename uri = Err e /\ snd r = error_record e) \/
   (process_image_body image llm_complete json_loads image_open image_crop
      image_save a filename uri = Ok (snd r) /\
    (face_dir_set a = true -> exists d, snd r = JObj d))).
Proof.
  cbv zeta. unfold process_image.
  destruct (process_image_body image llm_complete json_loads image_open image_crop
              image_save a filename uri) as [p|e] eqn:Hb; cbn [fst snd].
  - split; [reflexivity|]. right. split; [reflexivity|].
    destruct (process_image_body_ok a filename uri p Hb) as [u Hu].
    exact (save_face_crop_needs_dict a filename p u Hu).
  - split; [reflexivity|]. left. exists e. split; reflexivity.
Qed.

End WorkerProps.

(** Concrete capabilities for the examples: the model answers [answer],
    [json.loads] decodes it to [decoded], and [Image.open] succeeds or
    raises [open_err]. *)
Definition const_llm (answer : string) : string -> result string := fun _ => Ok answer.
Definition const_loads (decoded : json) : string -> result json := fun _ => Ok decoded.
Definition open_with (open_err : option exn) : string -> result unit :=
  fun _ => match open_err with Some e => Err e | None => Ok tt end.
Definition crop_ok : unit -> Z * Z * Z * Z -> result unit := fun _ _ => Ok tt.
Definition save_ok : unit -> string -> result unit := fun _ _ => Ok tt.

Definition with_faces : args :=
  mk_args "ids" "identity_outputs.json" 4 "json" "qwen2p5-vl-32b-instruct" (Some "faces").
Definition without_faces : args :=
  mk_args "ids" "identity_outputs.json" 4 "json" "qwen2p5-vl-32b-instruct" None.

Definition response_with_bbox : json :=
  JObj [("ID_type", JStr "DL"); ("name", JStr "JANE DOE"); ("dob", JStr "01/02/1990");
        ("altered", JBool false); ("face_bbox", JArr [JNum 10; JNum 10; JNum 50; JNum 50])].

Definition missing_image : exn :=
  PyExc "FileNotFoundError" "[Errno 2] No such file or directory: 'ids/a.png'".

(** C2 (counterexample): face output configured, a 4-element box, and
    [Image.open] raising: the worker returns the FailureRecord, not the
    record. *)
Lemma crop_failure_downgrades_result :
  process_image unit (const_llm "{...}") (const_loads response_with_bbox)
    (open_with (Some missing_image)) crop_ok save_ok with_faces "a.png" "data:..." =
  ("a.png", JObj [("error", JStr "[Errno 2] No such file or directory: 'ids/a.png'")]).
Proof. reflexivity. Qed.

Lemma process_image_crop_failure_is_failure_witness :
  const_llm "{...}" "data:..." = Ok "{...}" /\
  const_loads response_with_bbox "{...}" = Ok response_with_bbox /\
  normalize response_with_bbox = Ok response_with_bbox /\
  process_image unit (const_llm "{...}") (const_loads response_with_bbox)
    (open_with (Some missing_image)) crop_ok save_ok with_faces "a.png" "data:..." =
  ("a.png",
   match save_face_crop unit (open_with (Some missing_image)) crop_ok save_ok
           with_faces "a.png" response_with_bbox with
   | Ok _ => response_with_bbox
   | Err e => error_record e
   end).
Proof.
  assert (H1 : const_llm "{...}" "data:..." = Ok "{...}") by reflexivity.
  assert (H2 : const_loads response_with_bbox "{...}" = Ok response_with_bbox) by reflexivity.
  assert (H3 : normalize response_with_bbox = Ok response_with_bbox) by reflexivity.
  split; [exact H1 | split; [exact H2 | split; [exact H3 |]]].
  exact (process_image_crop_failure_is_failure unit (const_llm "{...}")
           (const_loads response_with_bbox) (open_with (Some missing_image))
           crop_ok save_ok with_faces "a.png" "data:..." "{...}" _ _ H1 H2 H3).
Defined.

(** C3 (counterexample): with no face directory, a model answer that
    decodes to an empty JSON array comes back as that array: neither a
    record dict nor a FailureRecord. *)
Lemma empty_array_answer_passes_through :
  process_image unit (const_llm "[]") (const_loads (JArr []))
    (open_with None) crop_ok save_ok without_faces "a.png" "data:..." =
  ("a.png", JArr []) /\
  (forall d, JArr [] <> JObj d).
Proof. split; [reflexivity | discriminate]. Qed.

(* ------------------------------------------------------------------ *)
(** ** The batch phase *)

Section BatchProps.

Variable image : Type.
Variable llm_complete : string -> result string.
Variable json_loads : string -> result json.
Variable image_open : string -> result image.
Variable image_crop : image -> Z * Z * Z * Z -> result image.
Variable image_save : image -> string -> result unit.

Let wk := worker image llm_complete json_loads image_open image_crop image_save.

Lemma worker_fst (a : args) (filename uri : string) : fst (wk a filename uri) = filename.
Proof.
  unfold wk, worker, process_image.
  destruct (process_image_body _ _ _ _ _ _ a filename uri); reflexivity.
Qed.

Lemma dict_set_absent (k : string) (v : json) (acc : list (string * json)) :
  ~ In k (map fst acc) -> dict_set k v acc = acc ++ [(k, v)].
Proof.
  intros Hn. rewrite <- (app_nil_r acc) at 1.
  rewrite dict_set_app_notin by exact Hn. reflexivity.
Qed.

(** The entry a completed future contributes. *)
Definition batch_entry (a : args) (item : string * string) : string * json :=
  (fst item, snd (wk a (fst item) (snd item))).

Lemma fold_batch (a : args) (items : list (string * string)) (acc : list (string * json)) :
  NoDup (map fst acc ++ map fst items) ->
  fold_left (fun output_data item =>
               let '(filename, result) := wk a (fst item) (snd item) in
               dict_set filename result output_data) items acc =
  acc ++ map (batch_entry a) items.
Proof.
  revert acc. induction items as [|it items IH]; intros acc Hnd; cbn [fold_left map].
  - rewrite app_nil_r. reflexivity.
  - destruct (NoDup_middle_notin _ _ _ Hnd) as [Hacc _].
    pose proof (worker_fst a (fst it) (snd it)) as Hf.
    destruct (wk a (fst it) (snd it)) as [fn r] eqn:Hw. simpl in Hf. subst fn.
    rewrite dict_set_absent by exact Hacc. rewrite IH.
    + rewrite <- app_assoc. unfold batch_entry. rewrite Hw. reflexivity.
    + rewrite map_app, <- app_assoc. exact Hnd.
Qed.

(** C6: for distinct filenames and [1 <= max_workers <= N], whatever
    order [as_completed] yields the futures in, the batch result has
    exactly N entries, its keys are the input filenames (each once), and
    the entry of each filename is the worker's result for that item. *)
Theorem run_batch_one_entry_per_file
    (a : args) (encoded completed : list (string * string)) :
  NoDup (map fst encoded) ->
  encoded ≡ₚ completed ->
  (1 <= max_workers a <= Z.of_nat (length encoded))%Z ->
  exists out,
    run_batch image llm_complete json_loads image_open image_crop image_save
      a encoded completed = Ok out /\
    length out = length encoded /\
    map fst out ≡ₚ map fst encoded /\
    forall filename uri, In (filename, uri) encoded ->
      dict_get filename out = Some (snd (wk a filename uri)).
Proof.
  intros Hnd Hperm Hmw.
  assert (Hkeys : map fst encoded ≡ₚ map fst completed) by (apply Permutation_map; exact Hperm).
  assert (Hndc : NoDup (map fst completed)) by (rewrite <- Hkeys; exact Hnd).
  exists (map (batch_entry a) completed). split.
  - unfold run_batch. destruct (Z.leb_spec (max_workers a) 0) as [Hle|_]; [lia|].
    f_equal. apply (fold_batch a completed []). exact Hndc.
  - assert (Hfst : map fst (map (batch_entry a) completed) = map fst completed)
      by (rewrite map_map; reflexivity).
    split; [rewrite length_map; symmetry; apply Permutation_length; exact Hperm|].
    split; [rewrite Hfst, Hkeys; reflexivity|].
    intros filename uri Hin.
    apply dict_get_in_NoDup; [rewrite Hfst; exact Hndc|].
    apply (in_map (batch_entry a)) in Hin.
    + change (batch_entry a (filename, uri)) with (filename, snd (wk a filename uri)) in Hin.
      revert Hin. apply Permutation_in, Permutation_map, Hperm.
Qed.

End BatchProps.

Definition batch_args : args :=
  mk_args "ids" "identity_outputs.csv" 2 "csv" "qwen2p5-vl-32b-instruct" None.

Definition two_items : list (string * string) :=
  [("a.png", "data:image/png;base64,AAAA"); ("b.jpg", "data:image/png;base64,BBBB")].

Lemma run_batch_one_entry_per_file_witness :
  NoDup (map fst two_items) /\
  two_items ≡ₚ rev two_items /\
  (1 <= max_workers batch_args <= Z.of_nat (length two_items))%Z /\
  exists out,
    run_batch unit (const_llm "{}") (const_loads (JObj [])) (open_with None)
      crop_ok save_ok batch_args two_items (rev two_items) = Ok out /\
    length out = length two_items /\
    map fst out ≡ₚ map fst two_items /\
    forall filename uri, In (filename, uri) two_items ->
      dict_get filename out =
      Some (snd (worker unit (const_llm "{}") (const_loads (JObj [])) (open_with None)
                   crop_ok save_ok batch_args filename uri)).
Proof.
  assert (H1 : NoDup (map fst two_items)) by (apply (bool_decide_unpack _); vm_compute; exact I).
  assert (H2 : two_items ≡ₚ rev two_items) by apply Permutation_rev.
  assert (H3 : (1 <= max_workers batch_args <= Z.of_nat (length two_items))%Z)
    by (unfold batch_args, two_items; simpl; lia).
  split; [exact H1 | split; [exact H2 | split; [exact H3 |]]].
  exact (run_batch_one_entry_per_file unit (const_llm "{}") (const_loads (JObj []))
           (open_with None) crop_ok save_ok batch_args two_items (rev two_items)
           H1 H2 H3).
Defined.

(* ------------------------------------------------------------------ *)
(** ** The face-crop path *)

Lemma list_ascii_of_string_app (s t : string) :
  list_ascii_of_string (s ++ t)%string = list_ascii_of_string s ++ list_ascii_of_string t.
Proof. induction s as [|c s IH]; simpl; [reflexivity | rewrite IH; reflexivity]. Qed.

Lemma string_app_inv_l (p s t : string) : (p ++ s = p ++ t)%string -> s = t.
Proof.
  intros H. apply (f_equal list_ascii_of_string) in H.
  rewrite !list_ascii_of_string_app in H. apply app_inv_head in H.
  rewrite <- (string_of_list_ascii_of_string s), <- (string_of_list_ascii_of_string t), H.
  reflexivity.
Qed.

Lemma string_app_inv_r (p s t : string) : (s ++ p = t ++ p)%string -> s = t.
Proof.
  intros H. apply (f_equal list_ascii_of_string) in H.
  rewrite !list_ascii_of_string_app in H. apply app_inv_tail in H.
  rewrite <- (string_of_list_ascii_of_string s), <- (string_of_list_ascii_of_string t), H.
  reflexivity.
Qed.

Lemma splitext_root_sub (p : string) (x : ascii) :
  In x (list_ascii_of_string (splitext_root p)) -> In x (list_ascii_of_string p).
Proof.
  unfold splitext_root.
  destruct (rfind dot (list_ascii_of_string p)) as [d|]; [|auto].
  destruct (_ && _); [|auto].
  rewrite list_ascii_of_string_of_list_ascii. intros Hin.
  rewrite <- (firstn_skipn d (list_ascii_of_string p)). apply in_app_iff. left. exact Hin.
Qed.

Lemma splitext_root_no_char (c : ascii) (p : string) :
  has_char c p = false -> has_char c (splitext_root p) = false.
Proof.
  intros H. destruct (has_char c (splitext_root p)) eqn:E; [|reflexivity].
  apply has_char_in, splitext_root_sub, has_char_in in E. congruence.
Qed.

Lemma face_name_relative (r : string) :
  has_char slash r = false -> starts_with_slash (r ++ "_face.png")%string = false.
Proof.
  destruct r as [|c r]; [reflexivity|].
  simpl. intros H. apply orb_false_iff in H as [H _]. exact H.
Qed.

Lemma os_path_join_inj (dir n1 n2 : string) :
  starts_with_slash n1 = false -> starts_with_slash n2 = false ->
  os_path_join dir n1 = os_path_join dir n2 -> n1 = n2.
Proof.
  unfold os_path_join. intros H1 H2. rewrite H1, H2.
  destruct (_ || _); [apply string_app_inv_l|].
  intros H. apply string_app_inv_l in H. apply (string_app_inv_l "/"). exact H.
Qed.

(** C7 (counterexample): [a.png] and [a.jpg], both accepted input
    names, get the same crop path. *)
Lemma face_crop_paths_collide :
  "a.png" <> "a.jpg" /\ face_crop_path "faces" "a.png" = face_crop_path "faces" "a.jpg".
Proof. split; [discriminate | reflexivity]. Qed.

(** C7 (amended): the crop path is
    [os.path.join(face_dir, splitext(filename)[0] + "_face.png")]; for
    file names without a slash (directory entries) two names get the
    same crop path exactly when their [splitext] roots coincide, so names
    differing only in extension collide and the others do not. *)
Theorem face_crop_path_collision_iff_same_root (dir f1 f2 : string) :
  has_char slash f1 = false -> has_char slash f2 = false ->
  face_crop_path dir f1 = os_path_join dir (splitext_root f1 ++ "_face.png")%string /\
  (face_crop_path dir f1 = face_crop_path dir f2 <-> splitext_root f1 = splitext_root f2).
Proof.
  intros H1 H2. split; [reflexivity|]. unfold face_crop_path. split.
  - intros H. apply os_path_join_inj in H;
      [| apply face_name_relative, splitext_root_no_char; assumption
       | apply face_name_relative, splitext_root_no_char; assumption].
    apply string_app_inv_r in H. exact H.
  - intros ->. reflexivity.
Qed.

Lemma face_crop_path_collision_iff_same_root_witness :
  has_char slash "a.png" = false /\ has_char slash "b.png" = false /\
  face_crop_path "faces" "a.png" = os_path_join "faces" (splitext_root "a.png" ++ "_face.png")%string /\
  (face_crop_path "faces" "a.png" = face_crop_path "faces" "b.png" <->
   splitext_root "a.png" = splitext_root "b.png").
Proof.
  assert (H1 : has_char slash "a.png" = false) by reflexivity.
  assert (H2 : has_char slash "b.png" = false) by reflexivity.
  split; [exact H1 | split; [exact H2 |]].
  exact (face_crop_path_collision_iff_same_root "faces" "a.png" "b.png" H1 H2).
Defined.

(* ------------------------------------------------------------------ *)
(** ** The export step *)

Section ExportProps.

Variable json_dump_indent4 : json -> string.
Variable open_for_write : string -> result unit.

Lemma csv_row_failure (filename : string) (e : exn) :
  csv_row filename (error_record e) = filename :: repeat "" 12.
Proof. reflexivity. Qed.

(** C8: CSV export opens the output, writes the header row with the
    thirteen fixed field names in order, then exactly one row per entry
    of the batch result, in its order, and a FailureRecord's row holds
    the filename followed by twelve empty strings. *)
Theorem csv_export_rows (a : args) (output_data : list (string * json)) :
  py_lower (output_format a) = "csv" ->
  open_for_write (output_path a) = Ok tt ->
  exists rows,
    export json_dump_indent4 open_for_write a output_data =
      Ok ([IoOpen (output_path a);
           IoRow ["filename"; "ID_type"; "dl_number"; "expiry"; "name"; "dob";
                  "address"; "sex"; "height"; "weight"; "hair"; "eyes"; "face_bbox"]] ++
          rows ++ [IoPrint ("CSV output saved to " ++ output_path a)%string]) /\
    length rows = length output_data /\
    (forall i filename data, nth_error output_data i = Some (filename, data) ->
       nth_error rows i = Some (IoRow (csv_row filename data))) /\
    (forall i filename e, nth_error output_data i = Some (filename, error_record e) ->
       nth_error rows i = Some (IoRow (filename :: repeat "" 12))).
Proof.
  intros Hfmt Hopen.
  exists (map (fun kv => IoRow (csv_row (fst kv) (snd kv))) output_data).
  split.
  - unfold export. rewrite Hfmt. cbn [String.eqb Ascii.eqb Bool.eqb andb].
    rewrite Hopen. reflexivity.
  - split; [apply length_map|].
    assert (Hrow : forall i filename data, nth_error output_data i = Some (filename, data) ->
              nth_error (map (fun kv => IoRow (csv_row (fst kv) (snd kv))) output_data) i =
              Some (IoRow (csv_row filename data)))
      by (intros i filename data H; rewrite nth_error_map, H; reflexivity).
    split; [exact Hrow|].
    intros i filename e H. rewrite (Hrow _ _ _ H), csv_row_failure. reflexivity.
Qed.

(** C9: for a format whose lower-case form is none of [json], [txt],
    [csv], the export step only prints the "not supported" message: it
    opens and writes nothing and does not raise. *)
Theorem export_unsupported_format (a : args) (output_data : list (string * json)) :
  py_lower (output_format a) <> "json" ->
  py_lower (output_format a) <> "txt" ->
  py_lower (output_format a) <> "csv" ->
  export json_dump_indent4 open_for_write a output_data =
    Ok [IoPrint ("Output format '" ++ output_format a ++ "' not supported.")%string].
Proof.
  intros Hj Ht Hc. unfold export.
  destruct (String.eqb_spec (py_lower (output_format a)) "json") as [H|_]; [congruence|].
  destruct (String.eqb_spec (py_lower (output_format a)) "txt") as [H|_]; [congruence|].
  destruct (String.eqb_spec (py_lower (output_format a)) "csv") as [H|_]; [congruence|].
  reflexivity.
Qed.

End ExportProps.

Definition dump_stub : json -> string := fun _ => "{}".
Definition open_ok : string -> result unit := fun _ => Ok tt.

Definition two_results : list (string * json) :=
  [("a.png", JObj [("ID_type", JStr "DL"); ("name", JStr "JANE DOE")]);
   ("b.jpg", error_record (PyExc "APIError" "inference failed"))].

Lemma csv_export_rows_witness :
  py_lower (output_format batch_args) = "csv" /\
  open_ok (output_path batch_args) = Ok tt /\
  exists rows,
    export dump_stub open_ok batch_args two_results =
      Ok ([IoOpen (output_path batch_args);
           IoRow ["filename"; "ID_type"; "dl_number"; "expiry"; "name"; "dob";
                  "address"; "sex"; "height"; "weight"; "hair"; "eyes"; "face_bbox"]] ++
          rows ++ [IoPrint ("CSV output saved to " ++ output_path batch_args)%string]) /\
    length rows = length two_results /\
    (forall i filename data, nth_error two_results i = Some (filename, data) ->
       nth_error rows i = Some (IoRow (csv_row filename data))) /\
    (forall i filename e, nth_error two_results i = Some (filename, error_record e) ->
       nth_error rows i = Some (IoRow (filename :: repeat "" 12))).
Proof.
  assert (H1 : py_lower (output_format batch_args) = "csv") by reflexivity.
  assert (H2 : open_ok (output_path batch_args) = Ok tt) by reflexivity.
  split; [exact H1 | split; [exact H2 |]].
  exact (csv_export_rows dump_stub open_ok batch_args two_results H1 H2).
Defined.

Definition xml_args : args :=
  mk_args "ids" "identity_outputs.xml" 4 "XML" "qwen2p5-vl-32b-instruct" None.

Lemma export_unsupported_format_witness :
  py_lower (output_format xml_args) <> "json" /\
  py_lower (output_format xml_args) <> "txt" /\
  py_lower (output_format xml_args) <> "csv" /\
  export dump_stub open_ok xml_args two_results =
    Ok [IoPrint ("Output format '" ++ output_format xml_args ++ "' not supported.")%string].
Proof.
  assert (H1 : py_lower (output_format xml_args) <> "json") by (simpl; discriminate).
  assert (H2 : py_lower (output_format xml_args) <> "txt") by (simpl; discriminate).
  assert (H3 : py_lower (output_format xml_args) <> "csv") by (simpl; discriminate).
  split; [exact H1 | split; [exact H2 | split; [exact H3 |]]].
  exact (export_unsupported_format dump_stub open_ok xml_args two_results H1 H2 H3).
Defined.

(* ------------------------------------------------------------------ *)
(** ** The encoder *)

Lemma prefix_app (p s : string) : String.prefix p (p ++ s)%string = true.
Proof.
  induction p as [|c p IH]; simpl; [destruct s; reflexivity|].
  destruct (ascii_dec c c) as [_|n]; [exact IH | congruence].
Qed.

(** C10: whatever the file name and its extension, a successful
    [encode_image] returns the file name and the data URI
    ["data:image/png;base64," ++ base64(content)] of the bytes read. *)
Theorem encode_image_tags_png (read_file : string -> result (list Z))
    (image_folder filename filename' uri : string) :
  encode_image read_file image_folder filename = Ok (filename', uri) ->
  filename' = filename /\
  exists bytes, read_file (os_path_join image_folder filename) = Ok bytes /\
    uri = ("data:image/png;base64," ++ b64encode bytes)%string /\
    String.prefix "data:image/png;base64," uri = true.
Proof.
  unfold encode_image.
  destruct (read_file (os_path_join image_folder filename)) as [bytes|]; cbn [rbind];
    [|discriminate].
  intros H. injection H as <- <-. split; [reflexivity|].
  exists bytes. split; [reflexivity | split; [reflexivity|]].
  apply prefix_app.
Qed.

Definition read_two_bytes : string -> result (list Z) := fun _ => Ok [255; 216]%Z.

Lemma encode_image_tags_png_witness :
  encode_image read_two_bytes "ids" "photo.jpg" = Ok ("photo.jpg", "data:image/png;base64,/9g=") /\
  "photo.jpg" = "photo.jpg" /\
  exists bytes, read_two_bytes (os_path_join "ids" "photo.jpg") = Ok bytes /\
    "data:image/png;base64,/9g=" = ("data:image/png;base64," ++ b64encode bytes)%string /\
    String.prefix "data:image/png;base64," "data:image/png;base64,/9g=" = true.
Proof.
  assert (H : encode_image read_two_bytes "ids" "photo.jpg" =
              Ok ("photo.jpg", "data:image/png;base64,/9g=")) by reflexivity.
  split; [exact H |].
  exact (encode_image_tags_png read_two_bytes "ids" "photo.jpg" _ _ H).
Defined.

(* ================================================================== *)
(** * Further properties of the code *)

(* ------------------------------------------------------------------ *)
(** ** The normalizer *)

Lemma dict_set_keys (k : string) (v : json) (d : list (string * json)) :
  In k (map fst d) -> map fst (dict_set k v d) = map fst d.
Proof.
  induction d as [|[k' w] d IH]; simpl; [tauto|].
  destruct (String.eqb_spec k k') as [->|Hne]; simpl; [reflexivity|].
  intros [H|H]; [congruence|]. rewrite IH by exact H. reflexivity.
Qed.

Lemma fill_dict_loop_keys (keys : list string) (d : list (string * json)) :
  (forall k, In k keys -> In k (map fst d)) ->
  map fst (fill_dict_loop keys d) = map fst d.
Proof.
  revert d. induction keys as [|k keys IH]; intros d Hk; simpl; [reflexivity|].
  assert (Hkd : In k (map fst d)) by (apply Hk; left; reflexivity).
  destruct (_ || _).
  - rewrite IH, dict_set_keys by (try rewrite dict_set_keys by exact Hkd;
                                   first [exact Hkd | intros; apply Hk; right; assumption]).
    reflexivity.
  - apply IH. intros; apply Hk; right; assumption.
Qed.

(** [fill_missing_fields] on a dict neither adds nor removes nor
    reorders keys, whatever the dict. *)
Theorem fill_missing_fields_same_keys (d : list (string * json)) :
  exists d', fill_missing_fields (JObj d) = Ok (JObj d') /\ map fst d' = map fst d.
Proof.
  eexists. split; [reflexivity|]. apply fill_dict_loop_keys. auto.
Qed.



(** The height clean-up leaves no double quote and no leading or
    trailing whitespace. *)
Theorem clean_height_str_shape (s : string) :
  has_char dquote (clean_height_str s) = false /\
  no_lead_space (list_ascii_of_string (clean_height_str s)) = true /\
  no_lead_space (rev (list_ascii_of_string (clean_height_str s))) = true.
Proof.
  unfold clean_height_str. split; [apply py_strip_no_new_char, remove_char_removes|].
  rewrite py_strip_list. split.
  - apply rstrip_keeps_no_lead, lstrip_l_no_lead.
  - rewrite rev_involutive. apply lstrip_l_no_lead.
Qed.

(** Values [fill_missing_fields] cannot iterate: [None], booleans,
    numbers and non-empty strings. *)
Definition not_iterable_response (v : json) : bool :=
  match v with
  | JObj _ | JArr _ | JStr EmptyString => false
  | _ => true
  end.

Section WorkerExtras.

Variable image : Type.
Variable llm_complete : string -> result string.
Variable json_loads : string -> result json.
Variable image_open : string -> result image.
Variable image_crop : image -> Z * Z * Z * Z -> result image.
Variable image_save : image -> string -> result unit.

(** A model answer that decodes to [None], a boolean, a number or a
    non-empty string makes [fill_missing_fields] raise [TypeError], and
    the worker returns that as a FailureRecord. *)
Theorem process_image_scalar_response_fails
    (a : args) (filename uri c : string) (v : json) :
  llm_complete uri = Ok c ->
  json_loads c = Ok v ->
  not_iterable_response v = true ->
  exists e, exn_type e = "TypeError" /\
    process_image image llm_complete json_loads image_open image_crop image_save
      a filename uri = (filename, error_record e).
Proof.
  intros Hc Hv Hni. unfold process_image, process_image_body.
  rewrite Hc. cbn [rbind]. rewrite Hv. cbn [rbind]. unfold normalize.
  destruct v as [| | | [|ch s] | |]; try discriminate; cbn [fill_missing_fields rbind];
    (eexists; split; [| reflexivity]; reflexivity).
Qed.

End WorkerExtras.

Lemma process_image_scalar_response_fails_witness :
  const_llm "42" "data:..." = Ok "42" /\ const_loads (JNum 42) "42" = Ok (JNum 42) /\
  not_iterable_response (JNum 42) = true /\
  exists e, exn_type e = "TypeError" /\
    process_image unit (const_llm "42") (const_loads (JNum 42)) (open_with None)
      crop_ok save_ok with_faces "a.png" "data:..." = ("a.png", error_record e).
Proof.
  assert (H1 : const_llm "42" "data:..." = Ok "42") by reflexivity.
  assert (H2 : const_loads (JNum 42) "42" = Ok (JNum 42)) by reflexivity.
  assert (H3 : not_iterable_response (JNum 42) = true) by reflexivity.
  split; [exact H1 | split; [exact H2 | split; [exact H3 |]]].
  exact (process_image_scalar_response_fails unit (const_llm "42") (const_loads (JNum 42))
           (open_with None) crop_ok save_ok with_faces "a.png" "data:..." "42" _ H1 H2 H3).
Defined.

(* ------------------------------------------------------------------ *)
(** ** The face-crop step *)

Lemma normalize_dict_ok (d : list (string * json)) (p : json) :
  NoDup (map fst d) -> normalize (JObj d) = Ok p -> p = JObj (map norm_entry d).
Proof.
  intros Hnd Hn. destruct (normalize_dict d Hnd) as [Hok Hbad].
  destruct (height_ok d) eqn:Hh.
  - rewrite (Hok eq_refl) in Hn. injection Hn as <-. reflexivity.
  - destruct (Hbad eq_refl) as [e [He _]]. congruence.
Qed.

Lemma is_sentinel_nonempty_list (l : list json) : l <> [] -> is_sentinel (JArr l) = false.
Proof. destruct l; [congruence | reflexivity]. Qed.

Section CropExtras.

Variable image : Type.
Variable llm_complete : string -> result string.
Variable json_loads : string -> result json.
Variable image_open : string -> result image.
Variable image_crop : image -> Z * Z * Z * Z -> result image.
Variable image_save : image -> string -> result unit.

Lemma save_face_crop_skips (a : args) (filename : string) (d : list (string * json)) (p : json) :
  NoDup (map fst d) ->
  normalize (JObj d) = Ok p ->
  (dict_get "face_bbox" d = None \/
   (exists v, dict_get "face_bbox" d = Some v /\ is_sentinel v = true) \/
   (exists l, dict_get "face_bbox" d = Some (JArr l) /\ l <> [] /\ length l <> 4)) ->
  save_face_crop image image_open image_crop image_save a filename p = Ok tt.
Proof.
  intros Hnd Hn Hbb. rewrite (normalize_dict_ok d p Hnd Hn).
  unfold save_face_crop. destruct (face_dir a) as [dir|]; [|reflexivity].
  destruct (negb (String.eqb dir "")); [|reflexivity].
  cbn [py_get rbind]. rewrite dict_get_norm.
  destruct Hbb as [-> | [[v [-> Hs]] | [l [-> [Hne Hlen]]]]]; cbn [option_map].
  - reflexivity.
  - unfold norm_field. rewrite Hs. reflexivity.
  - unfold norm_field. rewrite (is_sentinel_nonempty_list l Hne). cbn [String.eqb Ascii.eqb Bool.eqb andb].
    assert (Ht : py_truthy (JArr l) = true) by (destruct l; [congruence | reflexivity]).
    rewrite Ht. cbn [py_len rbind]. apply Nat.eqb_neq in Hlen. rewrite Hlen. reflexivity.
Qed.

(** When the box is absent, a sentinel (rewritten to "na") or a
    non-empty list whose length is not 4, the worker returns the
    normalized record without touching any image: the result is the
    same whatever [Image.open], [crop] and [save] do. *)
Theorem process_image_no_crop_without_box
    (a : args) (filename uri c : string) (d : list (string * json)) (p : json) :
  NoDup (map fst d) ->
  llm_complete uri = Ok c ->
  json_loads c = Ok (JObj d) ->
  normalize (JObj d) = Ok p ->
  (dict_get "face_bbox" d = None \/
   (exists v, dict_get "face_bbox" d = Some v /\ is_sentinel v = true) \/
   (exists l, dict_get "face_bbox" d = Some (JArr l) /\ l <> [] /\ length l <> 4)) ->
  process_image image llm_complete json_loads image_open image_crop image_save
    a filename uri = (filename, p).
Proof.
  intros Hnd Hc Hj Hn Hbb. unfold process_image, process_image_body.
  rewrite Hc. cbn [rbind]. rewrite Hj. cbn [rbind]. rewrite Hn. cbn [rbind].
  rewrite (save_face_crop_skips a filename d p Hnd Hn Hbb). reflexivity.
Qed.

(** With a face directory and a box of four integers [x, y, w, h], the
    crop step opens [input_dir/filename], crops the rectangle
    [(x, y, x + w, y + h)] and saves it to the crop path. *)
Theorem save_face_crop_rectangle (a : args) (dir filename : string)
    (d : list (string * json)) (p : json) (x y w h : Z) :
  NoDup (map fst d) ->
  normalize (JObj d) = Ok p ->
  face_dir a = Some dir -> dir <> "" ->
  dict_get "face_bbox" d = Some (JArr [JNum x; JNum y; JNum w; JNum h]) ->
  save_face_crop image image_open image_crop image_save a filename p =
    (let* img := image_open (os_path_join (input_dir a) filename) in
     let* crop := image_crop img (x, y, x + w, y + h)%Z in
     image_save crop (face_crop_path dir filename)).
Proof.
  intros Hnd Hn Hdir Hne Hbb. rewrite (normalize_dict_ok d p Hnd Hn).
  unfold save_face_crop. rewrite Hdir.
  apply String.eqb_neq in Hne. rewrite Hne. cbn [negb py_get rbind].
  rewrite dict_get_norm, Hbb. reflexivity.
Qed.

End CropExtras.

Lemma process_image_no_crop_without_box_witness :
  NoDup (map fst sample_kvs) /\
  const_llm "{...}" "data:..." = Ok "{...}" /\
  const_loads (JObj sample_kvs) "{...}" = Ok (JObj sample_kvs) /\
  normalize (JObj sample_kvs) = Ok (JObj sample_kvs) /\
  (dict_get "face_bbox" sample_kvs = None \/
   (exists v, dict_get "face_bbox" sample_kvs = Some v /\ is_sentinel v = true) \/
   (exists l, dict_get "face_bbox" sample_kvs = Some (JArr l) /\ l <> [] /\ length l <> 4)) /\
  process_image unit (const_llm "{...}") (const_loads (JObj sample_kvs))
    (open_with (Some missing_image)) crop_ok save_ok with_faces "a.png" "data:..." =
    ("a.png", JObj sample_kvs).
Proof.
  assert (H0 : NoDup (map fst sample_kvs)) by (apply (bool_decide_unpack _); vm_compute; exact I).
  assert (H1 : const_llm "{...}" "data:..." = Ok "{...}") by reflexivity.
  assert (H2 : const_loads (JObj sample_kvs) "{...}" = Ok (JObj sample_kvs)) by reflexivity.
  assert (H3 : normalize (JObj sample_kvs) = Ok (JObj sample_kvs)) by reflexivity.
  assert (H4 : dict_get "face_bbox" sample_kvs = None \/
     (exists v, dict_get "face_bbox" sample_kvs = Some v /\ is_sentinel v = true) \/
     (exists l, dict_get "face_bbox" sample_kvs = Some (JArr l) /\ l <> [] /\ length l <> 4))
    by (left; reflexivity).
  split; [exact H0 | split; [exact H1 | split; [exact H2 | split; [exact H3 | split; [exact H4 |]]]]].
  exact (process_image_no_crop_without_box unit (const_llm "{...}") (const_loads (JObj sample_kvs))
           (open_with (Some missing_image)) crop_ok save_ok with_faces "a.png" "data:..." "{...}"
           sample_kvs _ H0 H1 H2 H3 H4).
Defined.

Definition record_with_box : list (string * json) :=
  [("ID_type", JStr "DL"); ("face_bbox", JArr [JNum 10; JNum 10; JNum 50; JNum 50])].

Lemma save_face_crop_rectangle_witness :
  NoDup (map fst record_with_box) /\
  normalize (JObj record_with_box) = Ok (JObj record_with_box) /\
  face_dir with_faces = Some "faces" /\ "faces" <> "" /\
  dict_get "face_bbox" record_with_box = Some (JArr [JNum 10; JNum 10; JNum 50; JNum 50]) /\
  save_face_crop unit (open_with None) crop_ok save_ok with_faces "a.png" (JObj record_with_box) =
    (let* img := open_with None (os_path_join (input_dir with_faces) "a.png") in
     let* crop := crop_ok img (10, 10, 10 + 50, 10 + 50)%Z in
     save_ok crop (face_crop_path "faces" "a.png")).
Proof.
  assert (H0 : NoDup (map fst record_with_box)) by (apply (bool_decide_unpack _); vm_compute; exact I).
  assert (H1 : normalize (JObj record_with_box) = Ok (JObj record_with_box)) by reflexivity.
  assert (H2 : face_dir with_faces = Some "faces") by reflexivity.
  assert (H3 : "faces" <> "") by discriminate.
  assert (H4 : dict_get "face_bbox" record_with_box = Some (JArr [JNum 10; JNum 10; JNum 50; JNum 50]))
    by reflexivity.
  split; [exact H0 | split; [exact H1 | split; [exact H2 | split; [exact H3 | split; [exact H4 |]]]]].
  exact (save_face_crop_rectangle unit (open_with None) crop_ok save_ok with_faces "faces" "a.png"
           record_with_box _ 10 10 50 50 H0 H1 H2 H3 H4).
Defined.

Lemma rfind_from_app (c : ascii) (i : nat) (l1 l2 : list ascii) (best : option nat) :
  rfind_from c i (l1 ++ l2) best = rfind_from c (i + length l1) l2 (rfind_from c i l1 best).
Proof.
  revert i best. induction l1 as [|d l1 IH]; intros i best; simpl.
  - rewrite Nat.add_0_r. reflexivity.
  - rewrite IH. f_equal. lia.
Qed.

Lemma rfind_from_absent (c : ascii) (i : nat) (l : list ascii) (best : option nat) :
  ~ In c l -> rfind_from c i l best = best.
Proof.
  revert i best. induction l as [|d l IH]; intros i best Hn; simpl; [reflexivity|].
  destruct (Ascii.eqb_spec c d) as [->|_]; [simpl in Hn; tauto|].
  apply IH. simpl in Hn. tauto.
Qed.

(** For a name [stem.ext] whose extension has no dot, and whose stem
    has a character other than a dot (so it is not a hidden file name),
    the crop is saved as [stem_face.png] in the face directory. *)
Theorem face_crop_path_stem_ext (dir stem ext : string) :
  has_char slash stem = false -> has_char slash ext = false -> has_char dot ext = false ->
  existsb (fun c => negb (Ascii.eqb c dot)) (list_ascii_of_string stem) = true ->
  face_crop_path dir (stem ++ "." ++ ext)%string = os_path_join dir (stem ++ "_face.png")%string.
Proof.
  intros Hs1 He1 He2 Hnd. unfold face_crop_path, splitext_root. f_equal. f_equal.
  assert (Hl : list_ascii_of_string (stem ++ "." ++ ext)%string =
               list_ascii_of_string stem ++ dot :: list_ascii_of_string ext)
    by (rewrite list_ascii_of_string_app; reflexivity).
  rewrite Hl.
  assert (Hns : ~ In slash (list_ascii_of_string stem ++ dot :: list_ascii_of_string ext)).
  { rewrite in_app_iff. intros [H|[H|H]].
    - apply has_char_in in H. congruence.
    - discriminate.
    - apply has_char_in in H. congruence. }
  unfold rfind. rewrite (rfind_from_absent _ _ _ _ Hns).
  rewrite rfind_from_app. cbn [rfind_from Ascii.eqb Bool.eqb].
  rewrite rfind_from_absent by (intros H; apply has_char_in in H; congruence).
  rewrite Ascii.eqb_refl, Nat.add_0_l, Nat.sub_0_r. cbn [Nat.leb skipn andb].
  change (skipn 0 ?l) with l.
  rewrite !firstn_app, !Nat.sub_diag, !firstn_all. cbn [firstn]. rewrite !app_nil_r, Hnd.
  apply string_of_list_ascii_of_string.
Qed.

Lemma face_crop_path_stem_ext_witness :
  has_char slash "scan_01" = false /\ has_char slash "JPEG" = false /\
  has_char dot "JPEG" = false /\
  existsb (fun c => negb (Ascii.eqb c dot)) (list_ascii_of_string "scan_01") = true /\
  face_crop_path "faces" ("scan_01" ++ "." ++ "JPEG")%string =
    os_path_join "faces" ("scan_01" ++ "_face.png")%string.
Proof.
  assert (H1 : has_char slash "scan_01" = false) by reflexivity.
  assert (H2 : has_char slash "JPEG" = false) by reflexivity.
  assert (H3 : has_char dot "JPEG" = false) by reflexivity.
  assert (H4 : existsb (fun c => negb (Ascii.eqb c dot)) (list_ascii_of_string "scan_01") = true)
    by reflexivity.
  split; [exact H1 | split; [exact H2 | split; [exact H3 | split; [exact H4 |]]]].
  exact (face_crop_path_stem_ext "faces" "scan_01" "JPEG" H1 H2 H3 H4).
Defined.

(* ------------------------------------------------------------------ *)
(** ** The encoder and the encode phase *)

Lemma string_length_app (s t : string) :
  String.length (s ++ t)%string = (String.length s + String.length t)%nat.
Proof. induction s as [|c s IH]; simpl; [reflexivity | now rewrite IH]. Qed.

Lemma b64encode_length_aux (n : nat) (bs : list Z) :
  (length bs <= n)%nat -> String.length (b64encode bs) = (4 * ((length bs + 2) / 3))%nat.
Proof.
  revert bs. induction n as [|n IH]; intros bs Hn.
  - destruct bs; [reflexivity | simpl in Hn; lia].
  - destruct bs as [|b0 [|b1 [|b2 bs]]]; try reflexivity.
    cbn [b64encode String.length length].
    rewrite IH by (simpl in Hn; lia).
    replace (S (S (S (length bs))) + 2)%nat with (1 * 3 + (length bs + 2))%nat by lia.
    rewrite Nat.div_add_l by lia. lia.
Qed.

(** The data URI [encode_image] builds for a file of [n] bytes has
    [22 + 4 * ceil(n / 3)] characters: the fixed prefix, then padded
    base64. *)
Theorem encode_image_uri_length (read_file : string -> result (list Z))
    (image_folder filename filename' uri : string) (bytes : list Z) :
  read_file (os_path_join image_folder filename) = Ok bytes ->
  encode_image read_file image_folder filename = Ok (filename', uri) ->
  String.length uri = (22 + 4 * ((length bytes + 2) / 3))%nat.
Proof.
  intros Hr. unfold encode_image. rewrite Hr. cbn [rbind].
  intros H. injection H as _ <-. rewrite string_length_app.
  rewrite (b64encode_length_aux (length bytes)) by lia. reflexivity.
Qed.

Lemma encode_image_uri_length_witness :
  read_two_bytes (os_path_join "ids" "photo.jpg") = Ok [255; 216]%Z /\
  encode_image read_two_bytes "ids" "photo.jpg" = Ok ("photo.jpg", "data:image/png;base64,/9g=") /\
  String.length "data:image/png;base64,/9g=" = (22 + 4 * ((length [255; 216]%Z + 2) / 3))%nat.
Proof.
  assert (H1 : read_two_bytes (os_path_join "ids" "photo.jpg") = Ok [255; 216]%Z) by reflexivity.
  assert (H2 : encode_image read_two_bytes "ids" "photo.jpg" =
               Ok ("photo.jpg", "data:image/png;base64,/9g=")) by reflexivity.
  split; [exact H1 | split; [exact H2 |]].
  exact (encode_image_uri_length read_two_bytes "ids" "photo.jpg" _ _ _ H1 H2).
Defined.

(* ------------------------------------------------------------------ *)
(** ** The image filter of [main] *)

Lemma py_lower_app (s t : string) : py_lower (s ++ t)%string = (py_lower s ++ py_lower t)%string.
Proof. induction s as [|c s IH]; simpl; [reflexivity | now rewrite IH]. Qed.

Lemma substring_app_len (s t : string) (m : nat) :
  substring (String.length s) m (s ++ t)%string = substring 0 m t.
Proof. induction s as [|c s IH]; simpl; [reflexivity | exact IH]. Qed.

Lemma substring_full (t : string) : substring 0 (String.length t) t = t.
Proof. induction t as [|c t IH]; simpl; [reflexivity | now rewrite IH]. Qed.

Lemma py_endswith_app (s t : string) : py_endswith (s ++ t)%string t = true.
Proof.
  unfold py_endswith. rewrite string_length_app.
  replace (String.length s + String.length t - String.length t)%nat with (String.length s) by lia.
  rewrite substring_app_len, substring_full, String.eqb_refl, andb_true_r.
  apply Nat.leb_le. lia.
Qed.

(** The listing filter keeps every name whose extension is [.png], [.jpg]
    or [.jpeg] in any letter case, whatever precedes the extension. *)
Theorem is_image_name_any_case (stem ext : string) :
  In (py_lower ext) [".png"; ".jpg"; ".jpeg"] ->
  is_image_name (stem ++ ext)%string = true.
Proof.
  intros Hin. unfold is_image_name. rewrite py_lower_app.
  destruct Hin as [H|[H|[H|[]]]]; rewrite <- H, py_endswith_app;
    rewrite ?orb_true_l, ?orb_true_r; reflexivity.
Qed.

Lemma is_image_name_any_case_witness :
  In (py_lower ".JpEg") [".png"; ".jpg"; ".jpeg"] /\ is_image_name ("IMG_7" ++ ".JpEg")%string = true.
Proof.
  assert (H1 : In (py_lower ".JpEg") [".png"; ".jpg"; ".jpeg"]) by (right; right; left; reflexivity).
  split; [exact H1 |].
  exact (is_image_name_any_case "IMG_7" ".JpEg" H1).
Defined.

(* ------------------------------------------------------------------ *)
(** ** The encode phase and the whole pipeline of [main] *)

Lemma map_result_err_first {A B} (f : A -> result B) (pre : list A) (x : A) (post : list A) (e : exn) :
  (forall y, In y pre -> exists z, f y = Ok z) ->
  f x = Err e ->
  map_result f (pre ++ x :: post) = Err e.
Proof.
  intros Hpre Hx. induction pre as [|y pre IH]; simpl.
  - rewrite Hx. reflexivity.
  - destruct (Hpre y (or_introl eq_refl)) as [z Hz]. rewrite Hz. cbn [rbind].
    rewrite IH by (intros w Hw; apply Hpre; right; exact Hw). reflexivity.
Qed.

Lemma map_result_err_some {A B} (f : A -> result B) (P : exn -> Prop) (l : list A) (x : A) :
  (forall y e, f y = Err e -> P e) ->
  In x l -> (exists e, f x = Err e) ->
  exists e, map_result f l = Err e /\ P e.
Proof.
  intros HP Hin [e0 He0]. induction l as [|y l IH]; [destruct Hin|].
  simpl. destruct Hin as [<-|Hin].
  - rewrite He0. cbn [rbind]. exists e0. split; [reflexivity | exact (HP _ _ He0)].
  - destruct (f y) as [z|e'] eqn:Hy; cbn [rbind].
    + destruct (IH Hin) as [e [He HPe]]. rewrite He. cbn [rbind]. exists e. split; [reflexivity | exact HPe].
    + exists e'. split; [reflexivity | exact (HP _ _ Hy)].
Qed.

Lemma encode_image_ok (read_file : string -> result (list Z)) (folder f : string) (bytes : list Z) :
  read_file (os_path_join folder f) = Ok bytes ->
  encode_image read_file folder f = Ok (f, "data:image/png;base64," ++ b64encode bytes)%string.
Proof. intros Hb. unfold encode_image. rewrite Hb. reflexivity. Qed.

Lemma encode_all_ok (read_file : string -> result (list Z)) (folder : string) (files : list string) :
  (forall f, In f files -> exists bytes, read_file (os_path_join folder f) = Ok bytes) ->
  exists enc,
    encode_all read_file folder files = Ok enc /\
    map fst enc = files /\
    forall f uri, In (f, uri) enc ->
      exists bytes, read_file (os_path_join folder f) = Ok bytes /\
                    uri = ("data:image/png;base64," ++ b64encode bytes)%string.
Proof.
  unfold encode_all. induction files as [|f files IH]; intros Hall.
  - exists []. split; [reflexivity|]. split; [reflexivity|]. intros ? ? [].
  - destruct (Hall f (or_introl eq_refl)) as [bytes Hb].
    destruct IH as (enc & Henc & Hfst & Hin).
    { intros g Hg. apply Hall. right. exact Hg. }
    exists ((f, ("data:image/png;base64," ++ b64encode bytes)%string) :: enc).
    cbn [map_result]. rewrite (encode_image_ok _ _ _ _ Hb). cbn [rbind].
    rewrite Henc. cbn [rbind].
    split; [reflexivity|]. split; [simpl; congruence|].
    intros g u [Heq|Hg].
    + injection Heq as <- <-. exists bytes. split; [exact Hb | reflexivity].
    + exact (Hin g u Hg).
Qed.

(** The encode phase stops at the first unreadable image: when every
    earlier file of the list reads, the exception raised by reading a file
    is the result of the whole phase, whatever follows it. *)
Theorem encode_all_first_failure (read_file : string -> result (list Z)) (folder : string)
    (pre : list string) (f : string) (post : list string) (e : exn) :
  (forall g, In g pre -> exists bytes, read_file (os_path_join folder g) = Ok bytes) ->
  read_file (os_path_join folder f) = Err e ->
  encode_all read_file folder (pre ++ f :: post) = Err e.
Proof.
  intros Hpre Hf. unfold encode_all. apply map_result_err_first.
  - intros g Hg. destruct (Hpre g Hg) as [bytes Hb].
    eexists. exact (encode_image_ok _ _ _ _ Hb).
  - unfold encode_image. rewrite Hf. reflexivity.
Qed.

Definition read_all_but (bad : string) : string -> result (list Z) :=
  fun p => if String.eqb p bad then Err (PyExc "FileNotFoundError" "No such file or directory")
           else Ok [255; 216]%Z.

Lemma encode_all_first_failure_witness :
  (forall g, In g ["a.png"] ->
     exists bytes, read_all_but "ids/b.jpg" (os_path_join "ids" g) = Ok bytes) /\
  read_all_but "ids/b.jpg" (os_path_join "ids" "b.jpg") =
    Err (PyExc "FileNotFoundError" "No such file or directory") /\
  encode_all (read_all_but "ids/b.jpg") "ids" (["a.png"] ++ "b.jpg" :: ["c.png"]) =
    Err (PyExc "FileNotFoundError" "No such file or directory").
Proof.
  assert (H1 : forall g, In g ["a.png"] ->
            exists bytes, read_all_but "ids/b.jpg" (os_path_join "ids" g) = Ok bytes).
  { intros g [<-|[]]. exists [255; 216]%Z. reflexivity. }
  assert (H2 : read_all_but "ids/b.jpg" (os_path_join "ids" "b.jpg") =
                 Err (PyExc "FileNotFoundError" "No such file or directory")) by reflexivity.
  split; [exact H1 | split; [exact H2 |]].
  exact (encode_all_first_failure _ "ids" ["a.png"] "b.jpg" ["c.png"] _ H1 H2).
Defined.

Section MainProps.

Variable image : Type.
Variable llm_complete : string -> result string.
Variable json_loads : string -> result json.
Variable image_open : string -> result image.
Variable image_crop : image -> Z * Z * Z * Z -> result image.
Variable image_save : image -> string -> result unit.
Variable read_file : string -> result (list Z).

(** When the directory listing holds distinct names, every selected image
    file reads, and [max_workers >= 1], the pipeline of [main] up to the
    batch result succeeds whatever order the futures complete in: its
    keys are the selected image files, each once, and the entry of each
    file is the worker's result on the data URI of that file's bytes. *)
Theorem main_output_one_entry_per_image
    (order : list (string * string) -> list (string * string))
    (a : args) (listing : list string) :
  NoDup listing ->
  (forall enc, order enc ≡ₚ enc) ->
  (forall f, In f (image_files listing) ->
     exists bytes, read_file (os_path_join (input_dir a) f) = Ok bytes) ->
  (1 <= max_workers a)%Z ->
  exists out,
    main_output image llm_complete json_loads image_open image_crop image_save
      read_file order a listing = Ok out /\
    map fst out ≡ₚ image_files listing /\
    forall f bytes, In f (image_files listing) ->
      read_file (os_path_join (input_dir a) f) = Ok bytes ->
      dict_get f out =
        Some (snd (worker image llm_complete json_loads image_open image_crop image_save
                     a f ("data:image/png;base64," ++ b64encode bytes)%string)).
Proof.
  intros Hnd Hord Hread Hmw.
  destruct (encode_all_ok read_file (input_dir a) (image_files listing) Hread)
    as (enc & Henc & Hfst & Hin).
  assert (Hkeys : map fst (order enc) ≡ₚ image_files listing).
  { rewrite <- Hfst. apply Permutation_map. apply Hord. }
  assert (Hnd' : NoDup (map fst (order enc))).
  { apply NoDup_ListNoDup. apply (Permutation_NoDup (Permutation_sym Hkeys)).
    unfold image_files. apply List.NoDup_filter. apply NoDup_ListNoDup. exact Hnd. }
  exists (map (batch_entry image llm_complete json_loads image_open image_crop image_save a)
            (order enc)).
  assert (Hfst' : map fst (map (batch_entry image llm_complete json_loads image_open image_crop
                                  image_save a) (order enc)) = map fst (order enc))
    by (rewrite map_map; reflexivity).
  split; [| split].
  - unfold main_output. rewrite Henc. cbn [rbind]. unfold run_batch.
    destruct (max_workers a <=? 0)%Z eqn:Hz; [apply Z.leb_le in Hz; lia|].
    rewrite fold_batch by exact Hnd'. reflexivity.
  - rewrite Hfst'. exact Hkeys.
  - intros f bytes Hf Hb.
    rewrite <- Hfst in Hf. apply in_map_iff in Hf as [[f' u] [Hf' Hfu]]. simpl in Hf'. subst f'.
    destruct (Hin f u Hfu) as (bytes' & Hb' & Hu). rewrite Hb in Hb'. injection Hb' as <-.
    subst u. apply dict_get_in_NoDup.
    + rewrite Hfst'. exact Hnd'.
    + apply (in_map (batch_entry image llm_complete json_loads image_open image_crop image_save a)
                    _ (f, _)).
      apply (Permutation_in _ (Permutation_sym (Hord enc))). exact Hfu.
Qed.

End MainProps.

Definition listing_sample : list string := ["a.png"; "notes.txt"; "b.JPG"].

Lemma main_output_one_entry_per_image_witness :
  NoDup listing_sample /\
  (forall enc : list (string * string), List.rev enc ≡ₚ enc) /\
  (forall f, In f (image_files listing_sample) ->
     exists bytes, read_two_bytes (os_path_join (input_dir batch_args) f) = Ok bytes) /\
  (1 <= max_workers batch_args)%Z /\
  exists out,
    main_output unit (const_llm "{}") (const_loads (JObj [])) (open_with None) crop_ok save_ok
      read_two_bytes (@List.rev _) batch_args listing_sample = Ok out /\
    map fst out ≡ₚ image_files listing_sample /\
    forall f bytes, In f (image_files listing_sample) ->
      read_two_bytes (os_path_join (input_dir batch_args) f) = Ok bytes ->
      dict_get f out =
        Some (snd (worker unit (const_llm "{}") (const_loads (JObj [])) (open_with None) crop_ok
                     save_ok batch_args f ("data:image/png;base64," ++ b64encode bytes)%string)).
Proof.
  assert (H1 : NoDup listing_sample) by (apply (bool_decide_unpack _); vm_compute; exact I).
  assert (H2 : forall enc : list (string * string), List.rev enc ≡ₚ enc)
    by (intros enc; apply Permutation_sym, Permutation_rev).
  assert (H3 : forall f, In f (image_files listing_sample) ->
            exists bytes, read_two_bytes (os_path_join (input_dir batch_args) f) = Ok bytes)
    by (intros f _; exists [255; 216]%Z; reflexivity).
  assert (H4 : (1 <= max_workers batch_args)%Z) by (vm_compute; discriminate).
  split; [exact H1 | split; [exact H2 | split; [exact H3 | split; [exact H4 |]]]].
  exact (main_output_one_entry_per_image unit (const_llm "{}") (const_loads (JObj []))
           (open_with None) crop_ok save_ok read_two_bytes (@List.rev _) batch_args listing_sample
           H1 H2 H3 H4).
Defined.

(* ------------------------------------------------------------------ *)
(** ** The TXT and CSV exports *)






(** An entry that is not a dict (for instance the bare JSON array that
    the worker passes through) makes the TXT export raise
    [AttributeError], whatever the other entries are. *)
Theorem export_txt_non_dict_raises (json_dump_indent4 : json -> string)
    (open_for_write : string -> result unit) (a : args) (out : list (string * json))
    (filename : string) (data : json) :
  py_lower (output_format a) = "txt" ->
  open_for_write (output_path a) = Ok tt ->
  In (filename, data) out ->
  (forall d, data <> JObj d) ->
  exists e, export json_dump_indent4 open_for_write a out = Err e /\
            exn_type e = "AttributeError".
Proof.
  intros Hfmt Hopen Hin Hnd.
  destruct (map_result_err_some (fun kv => txt_lines (fst kv) (snd kv))
              (fun e => exn_type e = "AttributeError") out (filename, data))
    as (e & He & Ht).
  - intros [fn v] e H. destruct v; cbn in H; try discriminate;
      injection H as <-; reflexivity.
  - exact Hin.
  - destruct data; try (exfalso; eapply Hnd; reflexivity); eexists; reflexivity.
  - exists e. split; [| exact Ht].
    unfold export. rewrite Hfmt. cbn [String.eqb Ascii.eqb Bool.eqb andb].
    rewrite Hopen. cbn [rbind]. rewrite He. reflexivity.
Qed.

Lemma export_txt_non_dict_raises_witness :
  py_lower (output_format (mk_args "ids" "out.txt" 2 "txt" "m" None)) = "txt" /\
  open_ok (output_path (mk_args "ids" "out.txt" 2 "txt" "m" None)) = Ok tt /\
  In ("b.png", JArr []) [("a.png", JObj sample_kvs); ("b.png", JArr [])] /\
  (forall d, JArr [] <> JObj d) /\
  exists e, export dump_stub open_ok (mk_args "ids" "out.txt" 2 "txt" "m" None)
              [("a.png", JObj sample_kvs); ("b.png", JArr [])] = Err e /\
            exn_type e = "AttributeError".
Proof.
  assert (H1 : py_lower (output_format (mk_args "ids" "out.txt" 2 "txt" "m" None)) = "txt")
    by reflexivity.
  assert (H2 : open_ok (output_path (mk_args "ids" "out.txt" 2 "txt" "m" None)) = Ok tt)
    by reflexivity.
  assert (H3 : In ("b.png", JArr []) [("a.png", JObj sample_kvs); ("b.png", JArr [])])
    by (right; left; reflexivity).
  assert (H4 : forall d, JArr [] <> JObj d) by discriminate.
  split; [exact H1 | split; [exact H2 | split; [exact H3 | split; [exact H4 |]]]].
  exact (export_txt_non_dict_raises dump_stub open_ok _ _ "b.png" (JArr []) H1 H2 H3 H4).
Defined.


